(** * Python binding of drgn symbols: [libdrgn/python/symbol.c]

    A shallow embedding of the [_drgn.Symbol] type object: its wrapper
    constructor and destructor, the rich comparison slot, the five getters of
    [Symbol_getset] and the [tp_repr] slot, over an explicit store of
    [struct drgn_symbol] records.  The symbol index of the engine and the
    record constructor are not part of this translation unit; they are
    modelled in [Module Engine] from the design document. *)

From Stdlib Require Import ZArith Lia List Bool Ascii String DecimalString.
From stdpp Require Import base option gmap.
Import ListNotations.

Local Open Scope Z_scope.

(** ** Machine integers *)

Definition UINT64_MOD : Z := 2 ^ 64.

(** Conversion to [uint64_t] / [unsigned long] (LP64): reduction modulo 2^64. *)
Definition to_uint64 (v : Z) : Z := v mod UINT64_MOD.
Definition to_ulong (v : Z) : Z := v mod UINT64_MOD.

Definition is_uint64 (v : Z) : Prop := 0 <= v < UINT64_MOD.

(** ** The C side: [struct drgn_symbol] and its store *)

Definition loc := positive.

(** Modelled from the spec: [struct drgn_symbol] is declared in libdrgn's
    headers, which are not in this translation unit.  The five fields are the
    ones of the Symbol Record of the data model; [binding] and [kind] hold the
    numeric code of the C enumerator. *)
Record drgn_symbol : Type := mk_drgn_symbol {
  name : string;
  address : Z;
  size : Z;
  binding : Z;
  kind : Z;
}.

(** Modelled from the spec: the struct [Symbol] is declared in drgnpy.h,
    which is not in this translation unit.  A wrapper ties a record to the
    session that owns it: the two pointers that [Symbol_wrap] fills in. *)
Record Symbol : Type := mk_Symbol {
  sym : loc;
  prog : loc;
}.

(** The part of the process state the binding touches: the symbols owned by
    libdrgn and the reference counts of the [Program] objects. *)
Record state : Type := mk_state {
  symbols : gmap loc drgn_symbol;
  ob_refcnt : gmap loc Z;
}.

(** ** Outcomes of a C function of the binding *)

Inductive exception : Type :=
| MemoryError
| ValueError
| UnicodeDecodeError
| AttributeError.

Inductive outcome (A : Type) : Type :=
| Done (a : A)               (* the function returned [a] *)
| Raised (e : exception)     (* it returned NULL with the exception [e] set *)
| Undefined.                 (* undefined behaviour of the C program *)
Arguments Done {A} a.
Arguments Raised {A} e.
Arguments Undefined {A}.

Definition M (A : Type) : Type := state -> outcome A * state.

Definition ret {A} (a : A) : M A := fun st => (Done a, st).
Definition raise {A} (e : exception) : M A := fun st => (Raised e, st).
Definition undefined {A} : M A := fun st => (Undefined, st).

Definition bind {A B} (m : M A) (k : A -> M B) : M B :=
  fun st =>
    match m st with
    | (Done a, st') => k a st'
    | (Raised e, st') => (Raised e, st')
    | (Undefined, st') => (Undefined, st')
    end.

Notation "x <- c1 ;; c2" := (bind c1 (fun x => c2))
  (at level 100, c1 at next level, right associativity).

(** Dereference of a [struct drgn_symbol *]; a dangling pointer is undefined
    behaviour. *)
Definition deref (p : loc) : M drgn_symbol :=
  fun st =>
    match symbols st !! p with
    | Some r => (Done r, st)
    | None => (Undefined, st)
    end.

(** Modelled from the spec: libdrgn's accessors [drgn_symbol_name],
    [drgn_symbol_address], [drgn_symbol_size], [drgn_symbol_binding] and
    [drgn_symbol_kind] are defined outside this translation unit; each
    returns the stored field of the record. *)
Definition drgn_symbol_name (p : loc) : M string := r <- deref p ;; ret (name r).
Definition drgn_symbol_address (p : loc) : M Z := r <- deref p ;; ret (address r).
Definition drgn_symbol_size (p : loc) : M Z := r <- deref p ;; ret (size r).
Definition drgn_symbol_binding (p : loc) : M Z := r <- deref p ;; ret (binding r).
Definition drgn_symbol_kind (p : loc) : M Z := r <- deref p ;; ret (kind r).

(** Modelled from the spec: [drgn_symbol_eq] is defined in libdrgn, outside
    this translation unit.  Two Symbol Records are equal iff every field
    (name, address, size, binding, kind) is equal. *)
Definition drgn_symbol_eq (a b : loc) : M bool :=
  ra <- deref a ;;
  rb <- deref b ;;
  ret (String.eqb (name ra) (name rb) && (address ra =? address rb) &&
       (size ra =? size rb) && (binding ra =? binding rb) &&
       (kind ra =? kind rb))%bool.

(** Modelled from the spec: [drgn_symbol_destroy] (libdrgn) releases the
    record. *)
Definition drgn_symbol_destroy (p : loc) : M unit :=
  fun st => (Done tt, mk_state (delete p (symbols st)) (ob_refcnt st)).

(** ** The Python side *)

(** A Python [str] is a sequence of code points. *)
Definition unicode := list N.

(** An enumeration class built with [enum.Enum]: its name and its members
    (name, value), in definition order. *)
Record enum_class : Type := mk_enum_class {
  enum_name : string;
  enum_members : list (string * Z);
}.

Inductive PyObject : Type :=
| Py_NotImplemented
| Py_None
| Py_True
| Py_False
| PyLong (v : Z)
| PyUnicode (u : unicode)
| PyEnum (cls : string) (member : string) (value : Z)
| PySymbol (s : Symbol).

Inductive PyTypeObject : Type :=
| NotImplemented_type
| None_type
| Bool_type
| Long_type
| Unicode_type
| Enum_type (cls : string)
| Symbol_type.

Definition PyTypeObject_eqb (t u : PyTypeObject) : bool :=
  match t, u with
  | NotImplemented_type, NotImplemented_type
  | None_type, None_type
  | Bool_type, Bool_type
  | Long_type, Long_type
  | Unicode_type, Unicode_type
  | Symbol_type, Symbol_type => true
  | Enum_type c, Enum_type d => String.eqb c d
  | _, _ => false
  end.

Definition Py_TYPE (o : PyObject) : PyTypeObject :=
  match o with
  | Py_NotImplemented => NotImplemented_type
  | Py_None => None_type
  | Py_True | Py_False => Bool_type
  | PyLong _ => Long_type
  | PyUnicode _ => Unicode_type
  | PyEnum cls _ _ => Enum_type cls
  | PySymbol _ => Symbol_type
  end.

(** [Symbol_type] has [tp_flags = Py_TPFLAGS_DEFAULT], without
    [Py_TPFLAGS_BASETYPE]: it has no subtypes, so the check is on the exact
    type. *)
Definition PyObject_TypeCheck (o : PyObject) (t : PyTypeObject) : bool :=
  PyTypeObject_eqb (Py_TYPE o) t.

(** The comparison opcodes of object.h. *)
Definition Py_LT : Z := 0.
Definition Py_LE : Z := 1.
Definition Py_EQ : Z := 2.
Definition Py_NE : Z := 3.
Definition Py_GT : Z := 4.
Definition Py_GE : Z := 5.

Definition Py_RETURN_NOTIMPLEMENTED : M PyObject := ret Py_NotImplemented.

(** Modelled from the spec: the macro [Py_RETURN_BOOL] comes from drgnpy.h,
    which is not in this translation unit.  The comparison answers with the
    Boolean of its condition: [Py_RETURN_TRUE] or [Py_RETURN_FALSE]. *)
Definition Py_RETURN_BOOL (cond : bool) : M PyObject :=
  if cond then ret Py_True else ret Py_False.

(** The cast [(Symbol * )other]. *)
Definition as_Symbol (o : PyObject) : M Symbol :=
  match o with
  | PySymbol s => ret s
  | _ => undefined
  end.

Definition Symbol_richcompare (self : Symbol) (other : PyObject) (op : Z)
  : M PyObject :=
  if negb (PyObject_TypeCheck other Symbol_type) ||
     (negb (op =? Py_EQ) && negb (op =? Py_NE))
  then Py_RETURN_NOTIMPLEMENTED
  else
    o <- as_Symbol other ;;
    ret0 <- drgn_symbol_eq (sym self) (sym o) ;;
    let ret1 := if op =? Py_NE then negb ret0 else ret0 in
    Py_RETURN_BOOL ret1.

(** ** C strings, UTF-8 and hexadecimal output *)

Definition bytes_of (s : string) : list N :=
  map N_of_ascii (list_ascii_of_string s).

Definition in_range (lo hi b : N) : bool := ((lo <=? b) && (b <=? hi))%N.
Definition is_cont (b : N) : bool := in_range 128 191 b.

(** Strict UTF-8 decoding, as [PyUnicode_FromString] does it: shortest form
    only, no surrogates, nothing above U+10FFFF. *)
Fixpoint utf8_decode (bs : list N) : option unicode :=
  match bs with
  | [] => Some []
  | b0 :: r0 =>
    if (b0 <? 128)%N then cons b0 <$> utf8_decode r0
    else if in_range 194 223 b0 then
      match r0 with
      | b1 :: r1 =>
        if is_cont b1
        then cons ((b0 - 192) * 64 + (b1 - 128))%N <$> utf8_decode r1
        else None
      | _ => None
      end
    else if in_range 224 239 b0 then
      match r0 with
      | b1 :: b2 :: r2 =>
        if in_range (if (b0 =? 224)%N then 160 else 128)
                    (if (b0 =? 237)%N then 159 else 191) b1 && is_cont b2
        then cons ((b0 - 224) * 4096 + (b1 - 128) * 64 + (b2 - 128))%N
               <$> utf8_decode r2
        else None
      | _ => None
      end
    else if in_range 240 244 b0 then
      match r0 with
      | b1 :: b2 :: b3 :: r3 =>
        if in_range (if (b0 =? 240)%N then 144 else 128)
                    (if (b0 =? 244)%N then 143 else 191) b1 &&
           is_cont b2 && is_cont b3
        then cons ((b0 - 240) * 262144 + (b1 - 128) * 4096 +
                   (b2 - 128) * 64 + (b3 - 128))%N <$> utf8_decode r3
        else None
      | _ => None
      end
    else None
  end.

Definition hexdigits : list ascii := list_ascii_of_string "0123456789abcdef".

Definition hex_digit (d : Z) : ascii := nth (Z.to_nat d) hexdigits "0"%char.

(** The digit loop of [printf]'s [%x]: least significant digit first, at
    least one digit, until the quotient is zero.  [n] bounds the number of
    iterations; a [uint64_t] has 64 bits. *)
Fixpoint hex_loop (n : nat) (v : Z) (acc : string) : string :=
  match n with
  | O => acc
  | S n' =>
    let acc' := String (hex_digit (v mod 16)) acc in
    if v / 16 =? 0 then acc' else hex_loop n' (v / 16) acc'
  end.

(** [%" PRIx64 "] applied to a [uint64_t] argument, and the whole format
    ["0x%" PRIx64]. *)
Definition PRIx64 (v : Z) : string := hex_loop 64 (to_uint64 v) EmptyString.

Definition format_0x_PRIx64 (v : Z) : string := ("0x" ++ PRIx64 v)%string.

(** [sprintf] into a local array of [buf_size] bytes: the characters and the
    terminating NUL are written; writing past the array is undefined. *)
Definition sprintf (buf_size : nat) (out : string) : M string :=
  if (String.length out + 1 <=? buf_size)%nat then ret out else undefined.

(** Value of a string of hexadecimal digits (inverse of [hex_loop]). *)
Definition hex_digit_value (c : ascii) : Z :=
  let n := Z.of_N (N_of_ascii c) in
  if (48 <=? n) && (n <=? 57) then n - 48
  else if (97 <=? n) && (n <=? 102) then n - 87
  else 0.

Fixpoint hex_value (acc : Z) (s : string) : Z :=
  match s with
  | EmptyString => acc
  | String c s' => hex_value (acc * 16 + hex_digit_value c) s'
  end.

(** ** Reference counts of the owning [Program] *)

Definition Py_INCREF (p : loc) : M unit :=
  fun st =>
    match ob_refcnt st !! p with
    | Some n => (Done tt, mk_state (symbols st) (<[p := n + 1]> (ob_refcnt st)))
    | None => (Undefined, st)
    end.

(** [Py_XDECREF] of a non-NULL pointer; the object goes away with its last
    reference. *)
Definition Py_XDECREF (p : loc) : M unit :=
  fun st =>
    match ob_refcnt st !! p with
    | Some n =>
      if n - 1 =? 0
      then (Done tt, mk_state (symbols st) (delete p (ob_refcnt st)))
      else (Done tt, mk_state (symbols st) (<[p := n - 1]> (ob_refcnt st)))
    | None => (Undefined, st)
    end.

(** ** The type object [_drgn.Symbol] *)

Inductive format_arg : Type :=
| ArgObject (o : PyObject)     (* consumed by [%R] *)
| ArgString (s : string).      (* consumed by [%s] *)

Section Binding.

(** The two enumeration classes are created by the module initialisation,
    outside this translation unit, and with them [Enum_repr], the [tp_repr]
    of their members (class name, member name, value); the Unicode database
    belongs to the interpreter. *)
Variable SymbolBinding_class : enum_class.
Variable SymbolKind_class : enum_class.
Variable Py_UNICODE_ISPRINTABLE : N -> bool.
Variable Enum_repr : string -> string -> Z -> unicode.

Definition PyUnicode_FromString (s : string) : M PyObject :=
  match utf8_decode (bytes_of s) with
  | Some u => ret (PyUnicode u)
  | None => raise UnicodeDecodeError
  end.

(** Modelled from the spec: [PyLong_FromUint64] comes from drgnpy.h, which
    is not in this translation unit.  Address and size are 64-bit unsigned
    values; the parameter is a [uint64_t] and the result the Python [int] of
    that value. *)
Definition PyLong_FromUint64 (v : Z) : M PyObject := ret (PyLong (to_uint64 v)).

(** [PyObject_CallFunction(cls, "k", arg)] on an enumeration class: the
    lookup of a member by value, [ValueError] when there is none. *)
Definition PyObject_CallFunction_k (callable : enum_class) (arg : Z)
  : M PyObject :=
  match find (fun m => snd m =? to_ulong arg) (enum_members callable) with
  | Some (n, v) => ret (PyEnum (enum_name callable) n v)
  | None => raise ValueError
  end.

(** *** [repr] of the objects that reach [%R] *)

Definition hex_fixed (width : nat) (c : N) : list N :=
  map (fun i => N_of_ascii (hex_digit (Z.of_N c / 16 ^ Z.of_nat i mod 16)))
      (rev (seq 0 width)).

Definition quote_of (u : unicode) : N :=
  if existsb (N.eqb 39) u && negb (existsb (N.eqb 34) u) then 34%N else 39%N.

(** One character of [unicode_repr] (unicodeobject.c). *)
Definition repr_char (quote c : N) : list N :=
  (if (c =? quote) || (c =? 92) then [92; c]
   else if c =? 9 then [92; 116]
   else if c =? 10 then [92; 110]
   else if c =? 13 then [92; 114]
   else if (c <? 32) || (c =? 127) then 92 :: 120 :: hex_fixed 2 c
   else if c <? 127 then [c]
   else if Py_UNICODE_ISPRINTABLE c then [c]
   else if c <=? 255 then 92 :: 120 :: hex_fixed 2 c
   else if c <=? 65535 then 92 :: 117 :: hex_fixed 4 c
   else 92 :: 85 :: hex_fixed 8 c)%N.

Definition unicode_repr (u : unicode) : unicode :=
  let quote := quote_of u in
  quote :: flat_map (repr_char quote) u ++ [quote].

Definition Long_repr (v : Z) : unicode :=
  bytes_of (DecimalString.NilZero.string_of_int (Z.to_int v)).

(** [PyObject_Repr]: dispatch on the type's [tp_repr].  The slot of
    [Symbol_type] is [Symbol_repr] below, which never passes a [Symbol] to
    [%R]; that case is left out of the model. *)
Definition PyObject_Repr (o : PyObject) : M unicode :=
  match o with
  | Py_NotImplemented => ret (bytes_of "NotImplemented")
  | Py_None => ret (bytes_of "None")
  | Py_True => ret (bytes_of "True")
  | Py_False => ret (bytes_of "False")
  | PyLong v => ret (Long_repr v)
  | PyUnicode u => ret (unicode_repr u)
  | PyEnum cls member value => ret (Enum_repr cls member value)
  | PySymbol _ => undefined
  end.

(** [%s] decodes its argument as UTF-8 with the [replace] handler; on the
    ASCII strings that ["0x%" PRIx64] yields this is the identity. *)
Definition decode_replace (s : string) : unicode :=
  match utf8_decode (bytes_of s) with
  | Some u => u
  | None => map (fun b => if (b <? 128)%N then b else 65533%N) (bytes_of s)
  end.

(** [PyUnicode_FromFormat] restricted to the directives [%R] and [%s]. *)
Fixpoint format_loop (format : list ascii) (args : list format_arg)
  : M unicode :=
  match format with
  | [] => ret []
  | "%"%char :: "R"%char :: rest =>
    match args with
    | ArgObject o :: args' =>
      r <- PyObject_Repr o ;;
      t <- format_loop rest args' ;;
      ret (r ++ t)
    | _ => undefined
    end
  | "%"%char :: "s"%char :: rest =>
    match args with
    | ArgString s :: args' =>
      t <- format_loop rest args' ;;
      ret (decode_replace s ++ t)
    | _ => undefined
    end
  | "%"%char :: _ => undefined
  | c :: rest =>
    t <- format_loop rest args ;;
    ret (N_of_ascii c :: t)
  end.

Definition PyUnicode_FromFormat (format : string) (args : list format_arg)
  : M PyObject :=
  u <- format_loop (list_ascii_of_string format) args ;;
  ret (PyUnicode u).

(** *** The functions of symbol.c *)

(** [alloc] tells whether [call_tp_alloc(Symbol)] returned an object or
    NULL. *)
Definition Symbol_wrap (alloc : bool) (sym0 : loc) (prog0 : loc) : M PyObject :=
  if alloc then
    _ <- Py_INCREF prog0 ;;
    ret (PySymbol {| sym := sym0; prog := prog0 |})
  else raise MemoryError.

Definition Symbol_dealloc (self : Symbol) : M unit :=
  _ <- drgn_symbol_destroy (sym self) ;;
  _ <- Py_XDECREF (prog self) ;;
  ret tt.

Definition Symbol_get_name (self : Symbol) : M PyObject :=
  n <- drgn_symbol_name (sym self) ;;
  PyUnicode_FromString n.

Definition Symbol_get_address (self : Symbol) : M PyObject :=
  a <- drgn_symbol_address (sym self) ;;
  PyLong_FromUint64 a.

Definition Symbol_get_size (self : Symbol) : M PyObject :=
  s <- drgn_symbol_size (sym self) ;;
  PyLong_FromUint64 s.

Definition Symbol_get_binding (self : Symbol) : M PyObject :=
  b <- drgn_symbol_binding (sym self) ;;
  PyObject_CallFunction_k SymbolBinding_class b.

Definition Symbol_get_kind (self : Symbol) : M PyObject :=
  k <- drgn_symbol_kind (sym self) ;;
  PyObject_CallFunction_k SymbolKind_class k.

(** The three temporaries are released on every path
    ([_cleanup_pydecref_]); reference counts of immutable objects are not
    part of the state. *)
Definition Symbol_repr (self : Symbol) : M PyObject :=
  n <- drgn_symbol_name (sym self) ;;
  name0 <- PyUnicode_FromString n ;;
  binding0 <- Symbol_get_binding self ;;
  kind0 <- Symbol_get_kind self ;;
  a <- drgn_symbol_address (sym self) ;;
  address0 <- sprintf 19 (format_0x_PRIx64 a) ;;
  s <- drgn_symbol_size (sym self) ;;
  size0 <- sprintf 19 (format_0x_PRIx64 s) ;;
  PyUnicode_FromFormat
    "Symbol(name=%R, address=%s, size=%s, binding=%R, kind=%R)"
    [ArgObject name0; ArgString address0; ArgString size0;
     ArgObject binding0; ArgObject kind0].

Definition Symbol_getset : list (string * (Symbol -> M PyObject)) :=
  [("name"%string, Symbol_get_name);
   ("address"%string, Symbol_get_address);
   ("size"%string, Symbol_get_size);
   ("binding"%string, Symbol_get_binding);
   ("kind"%string, Symbol_get_kind)].

(** The getter that the descriptor of attribute [attr] calls. *)
Definition Symbol_getter (attr : string) : option (Symbol -> M PyObject) :=
  snd <$> find (fun e => String.eqb (fst e) attr) Symbol_getset.

(** The operations the type object exposes: the getters of [tp_getset],
    [tp_repr] and [tp_richcompare]. *)
Inductive operation : Type :=
| OpGetName | OpGetAddress | OpGetSize | OpGetBinding | OpGetKind
| OpRepr
| OpRichcompare (other : PyObject) (op : Z).

Definition run (o : operation) (self : Symbol) : M PyObject :=
  match o with
  | OpGetName => Symbol_get_name self
  | OpGetAddress => Symbol_get_address self
  | OpGetSize => Symbol_get_size self
  | OpGetBinding => Symbol_get_binding self
  | OpGetKind => Symbol_get_kind self
  | OpRepr => Symbol_repr self
  | OpRichcompare other op => Symbol_richcompare self other op
  end.

(** [a == b] and [a != b] as the interpreter sees them. *)
Definition Py_bool (b : bool) : PyObject := if b then Py_True else Py_False.

Definition equals (st : state) (a b : Symbol) : outcome PyObject :=
  fst (Symbol_richcompare a (PySymbol b) Py_EQ st).

Definition differs (st : state) (a b : Symbol) : outcome PyObject :=
  fst (Symbol_richcompare a (PySymbol b) Py_NE st).

(** Name of the member of [cls] with value [v]. *)
Definition member_name (cls : enum_class) (v : Z) : option string :=
  fst <$> find (fun m => snd m =? v) (enum_members cls).

Definition has_value (cls : enum_class) (v : Z) : bool :=
  existsb (fun m => snd m =? v) (enum_members cls).

(** A record of the data model: 64-bit unsigned address and size, a name
    that is text, binding and kind among the enumerated values. *)
Definition valid_symbol (r : drgn_symbol) : Prop :=
  is_uint64 (address r) /\ is_uint64 (size r) /\
  is_Some (utf8_decode (bytes_of (name r))) /\
  is_uint64 (binding r) /\ has_value SymbolBinding_class (binding r) = true /\
  is_uint64 (kind r) /\ has_value SymbolKind_class (kind r) = true.

End Binding.

(** ** The engine behind the binding *)

Module Engine.

Inductive error : Type := InvalidSymbol.

(** Modelled from the spec: the constructor of a Symbol Record is not in
    this translation unit.  Construction from (name, address, size, binding,
    kind) is pure; it fails with [InvalidSymbol] if [address + size]
    overflows 64 bits, or if kind or binding is outside the enumerated
    set. *)
Definition symbol_new (bindings kinds : enum_class)
    (name0 : string) (address0 size0 binding0 kind0 : Z)
  : error + drgn_symbol :=
  if UINT64_MOD <=? address0 + size0 then inl InvalidSymbol
  else if negb (has_value bindings binding0) || negb (has_value kinds kind0)
  then inl InvalidSymbol
  else inr (mk_drgn_symbol name0 address0 size0 binding0 kind0).

(** Modelled from the spec: a Symbol Table is the ordered sequence of the
    records of one image; [image] is the position of the image in load
    order. *)
Record SymbolTable : Type := mk_SymbolTable {
  image : nat;
  records : list drgn_symbol;
}.

Record entry : Type := mk_entry {
  e_image : nat;
  e_record : drgn_symbol;
}.

Definition table_entries (t : SymbolTable) : list entry :=
  map (mk_entry (image t)) (records t).

Fixpoint insert_by_address (e : entry) (idx : list entry) : list entry :=
  match idx with
  | [] => [e]
  | x :: rest =>
    if address (e_record e) <? address (e_record x)
    then e :: x :: rest
    else x :: insert_by_address e rest
  end.

(** Modelled from the spec: [build(tables)] merges all records of the given
    tables into one structure sorted by address (records of equal address
    stay in first-encountered order). *)
Definition build (tables : list SymbolTable) : list entry :=
  fold_left (fun idx e => insert_by_address e idx)
            (flat_map table_entries tables) [].

(** Modelled from the spec: the range of a record for containment is
    [address, address + size), and a record of size 0 covers the single
    address [address]. *)
Definition covers (r : drgn_symbol) (addr : Z) : bool :=
  (address r <=? addr) && (addr <? address r + Z.max (size r) 1).

Definition has_binding (bindings : enum_class) (member : string)
    (r : drgn_symbol) : bool :=
  match find (fun m => snd m =? binding r) (enum_members bindings) with
  | Some (n, _) => String.eqb n member
  | None => false
  end.

(** Modelled from the spec: the tie-break between two records that contain
    the address.  [prefer a b] holds when [a] wins over an earlier [b]:
    smaller size first; then GLOBAL over LOCAL/WEAK; then the more recently
    loaded image; what remains keeps the first encountered. *)
Definition prefer (bindings : enum_class) (a b : entry) : bool :=
  let ra := e_record a in
  let rb := e_record b in
  let global_wins x y :=
    has_binding bindings "GLOBAL" x &&
    (has_binding bindings "LOCAL" y || has_binding bindings "WEAK" y) in
  if size ra <? size rb then true
  else if size rb <? size ra then false
  else if global_wins ra rb then true
  else if global_wins rb ra then false
  else (e_image b <? e_image a)%nat.

Definition choose (bindings : enum_class) (addr : Z)
    (best : option entry) (e : entry) : option entry :=
  if covers (e_record e) addr then
    match best with
    | None => Some e
    | Some b => if prefer bindings e b then Some e else Some b
    end
  else best.

(** Modelled from the spec: [find_containing(address)] returns the record
    whose range contains the address, chosen by the tie-break, or not
    found. *)
Definition find_containing (bindings : enum_class) (idx : list entry)
    (addr : Z) : option drgn_symbol :=
  e_record <$> fold_left (choose bindings addr) idx None.

(** The range of the claim about containment, and the records an index
    was built from. *)
Definition in_range_of (r : drgn_symbol) (addr : Z) : Prop :=
  address r <= addr < address r + Z.max (size r) 1.

Definition indexed (tables : list SymbolTable) (r : drgn_symbol) : Prop :=
  exists t, In t tables /\ In r (records t).

End Engine.

(** ** Sample data *)

(** The members that the data model names, numbered in that order. *)
Definition sample_bindings : enum_class :=
  mk_enum_class "SymbolBinding"
    [("UNKNOWN", 0); ("LOCAL", 1); ("GLOBAL", 2); ("WEAK", 3);
     ("UNIQUE", 4)]%string.

Definition sample_kinds : enum_class :=
  mk_enum_class "SymbolKind"
    [("UNKNOWN", 0); ("NOTYPE", 1); ("OBJECT", 2); ("FUNC", 3);
     ("SECTION", 4); ("FILE", 5); ("COMMON", 6); ("TLS", 7)]%string.

(** A stand-in for [Py_UNICODE_ISPRINTABLE], not the table of the
    interpreter: it only rejects U+0080 to U+00A0.  The sample names are
    ASCII, for which [unicode_repr] does not consult the table. *)
Definition sample_isprintable (c : N) : bool := negb (in_range 128 160 c).

(** Modelled from the spec: the string form of a binding or kind in the
    canonical display form of the interface is the member's name.  It is
    one instance of the parameter [Enum_repr]; what [enum.Enum] itself
    prints is [enum_default_repr] below. *)
Definition sample_enum_repr (cls member : string) (value : Z) : unicode :=
  bytes_of member.

(** [Enum.__repr__] of the standard library, which [%R] reaches for a
    member of an enumeration class: [<Class.MEMBER: value>]. *)
Definition enum_default_repr (cls member : string) (value : Z) : unicode :=
  bytes_of ("<" ++ cls ++ "." ++ member ++ ": ") ++ Long_repr value ++
  bytes_of ">".

Definition sym_main : drgn_symbol := mk_drgn_symbol "main" 4096 80 2 3.
Definition sym_helper : drgn_symbol := mk_drgn_symbol "helper" 4176 32 1 3.
Definition sym_marker : drgn_symbol := mk_drgn_symbol "_start_marker" 4096 0 1 1.

(** Two programs; [main] was parsed once for each of them. *)
Definition sample_state : state :=
  mk_state
    (<[1%positive := sym_main]> (<[2%positive := sym_helper]>
       (<[3%positive := sym_main]> ∅)))
    (<[10%positive := 3]> (<[11%positive := 1]> ∅)).

Definition wrapper_main : Symbol := mk_Symbol 1%positive 10%positive.
Definition wrapper_helper : Symbol := mk_Symbol 2%positive 10%positive.
Definition wrapper_main_again : Symbol := mk_Symbol 3%positive 11%positive.

Definition sample_table : Engine.SymbolTable :=
  Engine.mk_SymbolTable 0 [sym_main; sym_helper].

Definition overlap_table : Engine.SymbolTable :=
  Engine.mk_SymbolTable 0 [sym_main; sym_marker].

(** ** UTF-8 encoding, dropped references, the descriptors of [tp_getset] *)

(** The UTF-8 bytes of one code point, and of a [str]. *)
Definition utf8_encode_cp (c : N) : list N :=
  (if c <? 128 then [c]
   else if c <? 2048 then [192 + c / 64; 128 + c mod 64]
   else if c <? 65536 then
     [224 + c / 4096; 128 + (c / 64) mod 64; 128 + c mod 64]
   else
     [240 + c / 262144; 128 + (c / 4096) mod 64; 128 + (c / 64) mod 64;
      128 + c mod 64])%N.

Definition utf8_encode (u : unicode) : list N := flat_map utf8_encode_cp u.

(** Unicode scalar values: up to U+10FFFF, surrogates excluded. *)
Definition is_scalar_value (c : N) : bool :=
  ((c <? 55296) || ((57344 <=? c) && (c <=? 1114111)))%N.

(** The C string with the given bytes. *)
Definition string_of_bytes (bs : list N) : string :=
  string_of_list_ascii (map ascii_of_N bs).

(** [n] owners of [p] release their reference, one after the other. *)
Fixpoint drop_refs (n : nat) (p : loc) : M unit :=
  match n with
  | O => ret tt
  | S k => _ <- Py_XDECREF p ;; drop_refs k p
  end.

(** A row of a [PyGetSetDef] table: name, getter, setter (NULL is [None]);
    the doc string is left out. *)
Record PyGetSetDef : Type := mk_PyGetSetDef {
  gs_name : string;
  gs_get : Symbol -> M PyObject;
  gs_set : option (Symbol -> PyObject -> M unit);
}.

(** Assignment through a getset descriptor (descrobject.c): the setter is
    called if there is one, [AttributeError] otherwise. *)
Definition getset_set (d : PyGetSetDef) (obj : Symbol) (value : PyObject)
  : M unit :=
  match gs_set d with
  | Some set => set obj value
  | None => raise AttributeError
  end.

Section Descriptors.

Variable SymbolBinding_class : enum_class.
Variable SymbolKind_class : enum_class.

(** [Symbol_getset] with its third column: every setter is NULL. *)
Definition Symbol_getset_rows : list PyGetSetDef :=
  [mk_PyGetSetDef "name" Symbol_get_name None;
   mk_PyGetSetDef "address" Symbol_get_address None;
   mk_PyGetSetDef "size" Symbol_get_size None;
   mk_PyGetSetDef "binding" (Symbol_get_binding SymbolBinding_class) None;
   mk_PyGetSetDef "kind" (Symbol_get_kind SymbolKind_class) None].

Definition Symbol_descriptor (attr : string) : option PyGetSetDef :=
  find (fun d => String.eqb (gs_name d) attr) Symbol_getset_rows.

(** [self.attr = value] for an attribute of [tp_getset]. *)
Definition Symbol_setattr (attr : string) (self : Symbol) (value : PyObject)
  : option (M unit) :=
  (fun d => getset_set d self value) <$> Symbol_descriptor attr.

End Descriptors.

(** A record whose name is not ASCII: U+00E9, U+20AC, U+1F600. *)
Definition sample_text : unicode := [233; 8364; 128512]%N.

Definition sym_text : drgn_symbol :=
  mk_drgn_symbol (string_of_bytes (utf8_encode sample_text)) 8192 0 1 2.

Definition text_state : state :=
  mk_state (<[1%positive := sym_text]> ∅) (<[10%positive := 1]> ∅).

(** The records an operation dereferences. *)
Definition footprint (self : Symbol) (other : option PyObject) : list loc :=
  match other with
  | Some (PySymbol b) => [sym self; sym b]
  | _ => [sym self]
  end.

(** The text that [Symbol_repr] builds from the decoded name, the record and
    the names of the two members. *)
Definition display_text (bindings kinds : enum_class)
    (isprintable : N -> bool) (enum_repr : string -> string -> Z -> unicode)
    (r : drgn_symbol) (u : unicode) (bn kn : string) : unicode :=
  bytes_of "Symbol(name=" ++ unicode_repr isprintable u ++
  bytes_of ", address=0x" ++ bytes_of (PRIx64 (address r)) ++
  bytes_of ", size=0x" ++ bytes_of (PRIx64 (size r)) ++
  bytes_of ", binding=" ++
  enum_repr (enum_name bindings) bn (to_ulong (binding r)) ++
  bytes_of ", kind=" ++
  enum_repr (enum_name kinds) kn (to_ulong (kind r)) ++
  bytes_of ")".

Definition operation_footprint (o : operation) (self : Symbol) : list loc :=
  match o with
  | OpRichcompare other _ => footprint self (Some other)
  | _ => footprint self None
  end.

(** A computation that leaves the state alone and whose result is the same
    in any two states that hold the same records at the locations [ps]. *)
Definition reads_only {A} (ps : list loc) (m : M A) : Prop :=
  forall st1 st2,
    (forall p, In p ps -> symbols st1 !! p = symbols st2 !! p) ->
    fst (m st1) = fst (m st2) /\ snd (m st1) = st1 /\ snd (m st2) = st2.

(** ** Notions used in the statements *)

(** A computation that leaves the state as it found it. *)
Definition read_only {A} (m : M A) : Prop := forall st, snd (m st) = st.

(** A computation whose result does not depend on the state and that leaves
    the state alone. *)
Definition pure {A} (m : M A) : Prop := exists o, forall st, m st = (o, st).

(** Two computations that leave the state alone and agree whenever the
    record [m1] finds at [p1] is the record [m2] finds at [p2]. *)
Definition same_view {A} (p1 p2 : loc) (m1 m2 : M A) : Prop :=
  forall st1 st2,
    symbols st1 !! p1 = symbols st2 !! p2 ->
    fst (m1 st1) = fst (m2 st2) /\ snd (m1 st1) = st1 /\ snd (m2 st2) = st2.

(** Byte strings within ASCII. *)
Definition ascii_only (bs : list N) : Prop := Forall (fun b => (b < 128)%N) bs.

(** Equality of the five fields. *)
Definition same_fields (a b : drgn_symbol) : Prop :=
  name a = name b /\ address a = address b /\ size a = size b /\
  binding a = binding b /\ kind a = kind b.

(** * Properties *)

(** ** The monad and the store *)

Lemma deref_Some st p r :
  symbols st !! p = Some r -> deref p st = (Done r, st).
Proof. intros H. unfold deref. now rewrite H. Qed.

Lemma deref_state st p : snd (deref p st) = st.
Proof. unfold deref. now destruct (symbols st !! p). Qed.

Lemma bind_Done {A B} (m : M A) (k : A -> M B) st a st' :
  m st = (Done a, st') -> bind m k st = k a st'.
Proof. intros H. unfold bind. now rewrite H. Qed.

Lemma read_only_ret {A} (a : A) : read_only (ret a).
Proof. now intros st. Qed.

Lemma read_only_raise {A} e : read_only (@raise A e).
Proof. now intros st. Qed.

Lemma read_only_undefined {A} : read_only (@undefined A).
Proof. now intros st. Qed.

Lemma read_only_deref p : read_only (deref p).
Proof. intros st. apply deref_state. Qed.

Lemma read_only_bind {A B} (m : M A) (k : A -> M B) :
  read_only m -> (forall a, read_only (k a)) -> read_only (bind m k).
Proof.
  intros Hm Hk st. unfold bind.
  specialize (Hm st). destruct (m st) as [[a | e | ] st'] eqn:E; simpl in *; subst.
  - apply Hk.
  - reflexivity.
  - reflexivity.
Qed.

Ltac ro_step :=
  first [ apply read_only_bind; [ | intros ? ]
        | apply read_only_ret | apply read_only_raise
        | apply read_only_undefined | apply read_only_deref ].

(** ** Field-wise equality *)

Lemma drgn_symbol_eq_run st a b ra rb :
  symbols st !! a = Some ra -> symbols st !! b = Some rb ->
  exists e : bool,
    drgn_symbol_eq a b st = (Done e, st) /\ (e = true <-> same_fields ra rb).
Proof.
  intros Ha Hb. unfold drgn_symbol_eq.
  rewrite (bind_Done _ _ _ _ _ (deref_Some _ _ _ Ha)).
  rewrite (bind_Done _ _ _ _ _ (deref_Some _ _ _ Hb)).
  eexists; split; [reflexivity | ].
  unfold same_fields.
  rewrite !andb_true_iff, String.eqb_eq, !Z.eqb_eq. tauto.
Qed.

Lemma richcompare_symbols st a b ra rb op :
  symbols st !! sym a = Some ra -> symbols st !! sym b = Some rb ->
  op = Py_EQ \/ op = Py_NE ->
  exists e : bool,
    (e = true <-> same_fields ra rb) /\
    Symbol_richcompare a (PySymbol b) op st =
      (Done (Py_bool (if op =? Py_NE then negb e else e)), st).
Proof.
  intros Ha Hb Hop.
  destruct (drgn_symbol_eq_run st _ _ _ _ Ha Hb) as (e & Hrun & He).
  exists e; split; [exact He | ].
  unfold Symbol_richcompare.
  replace (negb (PyObject_TypeCheck (PySymbol b) Symbol_type) ||
           (negb (op =? Py_EQ) && negb (op =? Py_NE))) with false
    by (destruct Hop; subst; reflexivity).
  cbn [as_Symbol]. unfold bind at 1. cbn [ret].
  rewrite (bind_Done _ _ _ _ _ Hrun).
  unfold Py_RETURN_BOOL, Py_bool.
  now destruct (if op =? Py_NE then negb e else e).
Qed.

(** ** Rich comparison *)

(** C1.  For two wrapped Symbol Records, [==] answers [True] exactly when the
    five fields (name, address, size, binding, kind) agree and [False]
    otherwise.  The relation is reflexive, symmetric and transitive, and the
    answer is the same for any other pair of wrappers, in any other state,
    whose records carry the same field values: neither the pointers, nor the
    owning program, nor the rest of the store matter. *)
Theorem Symbol_equality_structural
    (st st' : state) (a b c a' b' : Symbol) (ra rb rc : drgn_symbol) :
  symbols st !! sym a = Some ra ->
  symbols st !! sym b = Some rb ->
  symbols st !! sym c = Some rc ->
  symbols st' !! sym a' = Some ra ->
  symbols st' !! sym b' = Some rb ->
  (equals st a b = Done Py_True <->
     name ra = name rb /\ address ra = address rb /\ size ra = size rb /\
     binding ra = binding rb /\ kind ra = kind rb) /\
  (equals st a b = Done Py_False <-> ~ same_fields ra rb) /\
  equals st a a = Done Py_True /\
  (equals st a b = Done Py_True -> equals st b a = Done Py_True) /\
  (equals st a b = Done Py_True -> equals st b c = Done Py_True ->
     equals st a c = Done Py_True) /\
  equals st' a' b' = equals st a b.
Proof.
  intros Ha Hb Hc Ha' Hb'.
  assert (EQ : forall s x y rx ry,
             symbols s !! sym x = Some rx -> symbols s !! sym y = Some ry ->
             exists e : bool, (e = true <-> same_fields rx ry) /\
                              equals s x y = Done (Py_bool e)).
  { intros s x y rx ry Hx Hy.
    destruct (richcompare_symbols s x y rx ry Py_EQ Hx Hy (or_introl eq_refl))
      as (e & He & Hrun).
    exists e. split; [exact He | ]. unfold equals. now rewrite Hrun. }
  assert (T : forall s x y rx ry,
             symbols s !! sym x = Some rx -> symbols s !! sym y = Some ry ->
             (equals s x y = Done Py_True <-> same_fields rx ry)).
  { intros s x y rx ry Hx Hy.
    destruct (EQ s x y rx ry Hx Hy) as (e & He & ->).
    destruct e; simpl; split; intros H; try reflexivity.
    - now apply He.
    - discriminate.
    - apply He in H. discriminate. }
  split; [ | split; [ | split; [ | split; [ | split ] ] ] ].
  - apply (T st a b ra rb Ha Hb).
  - destruct (EQ st a b ra rb Ha Hb) as (e & He & Hr).
    rewrite Hr. destruct e; simpl; split.
    + discriminate.
    + intros H. exfalso. apply H. now apply He.
    + intros _ Hs. apply He in Hs. discriminate.
    + reflexivity.
  - apply (T st a a ra ra Ha Ha). now unfold same_fields.
  - intros H. apply (T st a b ra rb Ha Hb) in H.
    apply (T st b a rb ra Hb Ha). unfold same_fields in *.
    intuition congruence.
  - intros H1 H2. apply (T st a b ra rb Ha Hb) in H1.
    apply (T st b c rb rc Hb Hc) in H2.
    apply (T st a c ra rc Ha Hc). unfold same_fields in *.
    intuition congruence.
  - destruct (EQ st a b ra rb Ha Hb) as (e & He & ->).
    destruct (EQ st' a' b' ra rb Ha' Hb') as (e' & He' & ->).
    f_equal. destruct e, e'; try reflexivity.
    + destruct He as [He _], He' as [_ He']. specialize (He' (He eq_refl)). discriminate.
    + destruct He as [_ He], He' as [He' _]. specialize (He (He' eq_refl)). discriminate.
Qed.

(** Two wrappers of separately stored copies of [main], owned by different
    programs, compare equal. *)
Lemma Symbol_equality_structural_witness :
  symbols sample_state !! sym wrapper_main = Some sym_main /\
  symbols sample_state !! sym wrapper_main_again = Some sym_main /\
  symbols sample_state !! sym wrapper_helper = Some sym_helper /\
  equals sample_state wrapper_main wrapper_main_again = Done Py_True.
Proof.
  split; [reflexivity | split; [reflexivity | split; [reflexivity | ] ] ].
  apply (proj1 (Symbol_equality_structural sample_state sample_state
                  wrapper_main wrapper_main_again wrapper_helper
                  wrapper_main wrapper_main_again sym_main sym_main sym_helper
                  eq_refl eq_refl eq_refl eq_refl eq_refl)).
  repeat split.
Defined.

(** C3.  Against a value that is not a [Symbol], both [==] and [!=] return
    [NotImplemented]; nothing is raised, the state is untouched, and the
    record of [self] is not even read. *)
Theorem Symbol_richcompare_other_type
    (st : state) (self : Symbol) (v : PyObject) :
  Py_TYPE v <> Symbol_type ->
  Symbol_richcompare self v Py_EQ st = (Done Py_NotImplemented, st) /\
  Symbol_richcompare self v Py_NE st = (Done Py_NotImplemented, st).
Proof.
  intros Hv. unfold Symbol_richcompare, PyObject_TypeCheck.
  destruct v; simpl in *; try (split; reflexivity).
  congruence.
Qed.

Lemma Symbol_richcompare_other_type_witness :
  Py_TYPE (PyLong 4096) <> Symbol_type /\
  Symbol_richcompare wrapper_main (PyLong 4096) Py_EQ sample_state =
    (Done Py_NotImplemented, sample_state).
Proof.
  split; [discriminate | ].
  apply (Symbol_richcompare_other_type sample_state wrapper_main (PyLong 4096)).
  discriminate.
Defined.

(** C4.  Between two Symbols, each of the four ordering comparisons returns
    [NotImplemented]: neither a Boolean nor an exception. *)
Theorem Symbol_richcompare_ordering (st : state) (a b : Symbol) :
  Symbol_richcompare a (PySymbol b) Py_LT st = (Done Py_NotImplemented, st) /\
  Symbol_richcompare a (PySymbol b) Py_LE st = (Done Py_NotImplemented, st) /\
  Symbol_richcompare a (PySymbol b) Py_GT st = (Done Py_NotImplemented, st) /\
  Symbol_richcompare a (PySymbol b) Py_GE st = (Done Py_NotImplemented, st).
Proof. repeat split. Qed.

(** C9.  Between two Symbols, [!=] returns the negation of what [==]
    returns. *)
Theorem Symbol_ne_negates_eq
    (st : state) (a b : Symbol) (ra rb : drgn_symbol) :
  symbols st !! sym a = Some ra ->
  symbols st !! sym b = Some rb ->
  exists e : bool,
    equals st a b = Done (Py_bool e) /\
    differs st a b = Done (Py_bool (negb e)).
Proof.
  intros Ha Hb.
  destruct (richcompare_symbols st a b ra rb Py_EQ Ha Hb (or_introl eq_refl))
    as (e & He & Heq).
  destruct (richcompare_symbols st a b ra rb Py_NE Ha Hb (or_intror eq_refl))
    as (e' & He' & Hne).
  assert (e' = e) as ->.
  { destruct e, e'; try reflexivity.
    - destruct He as [He _], He' as [_ He']. now rewrite He' by now apply He.
    - destruct He as [_ He], He' as [He' _]. now rewrite He by now apply He'. }
  exists e. unfold equals, differs. rewrite Heq, Hne. now split.
Qed.

Lemma Symbol_ne_negates_eq_witness :
  symbols sample_state !! sym wrapper_main = Some sym_main /\
  symbols sample_state !! sym wrapper_helper = Some sym_helper /\
  exists e : bool,
    equals sample_state wrapper_main wrapper_helper = Done (Py_bool e) /\
    differs sample_state wrapper_main wrapper_helper = Done (Py_bool (negb e)).
Proof.
  split; [reflexivity | split; [reflexivity | ] ].
  apply (Symbol_ne_negates_eq sample_state wrapper_main wrapper_helper
           sym_main sym_helper eq_refl eq_refl).
Defined.

(** ** Hexadecimal output *)

Lemma string_app_assoc (s t u : string) :
  ((s ++ t) ++ u = s ++ (t ++ u))%string.
Proof.
  induction s as [ | c s IH]; [reflexivity | ].
  change (String c ((s ++ t) ++ u) = String c (s ++ t ++ u))%string.
  now rewrite IH.
Qed.

Lemma hex_loop_app n : forall v acc,
  hex_loop n v acc = (hex_loop n v EmptyString ++ acc)%string.
Proof.
  induction n as [ | n IH]; intros v acc; simpl.
  - reflexivity.
  - destruct (v / 16 =? 0).
    + reflexivity.
    + rewrite (IH _ (String _ acc)), (IH _ (String _ EmptyString)).
      now rewrite string_app_assoc.
Qed.

Lemma string_length_app (s t : string) :
  String.length (s ++ t) = (String.length s + String.length t)%nat.
Proof.
  induction s as [ | c s IH]; [reflexivity | ].
  change (S (String.length (s ++ t)) = S (String.length s + String.length t)).
  now rewrite IH.
Qed.

Lemma hex_loop_length n : forall (k : nat) v,
  0 <= v < 16 ^ Z.of_nat k -> (1 <= k <= n)%nat ->
  (1 <= String.length (hex_loop n v EmptyString) <= k)%nat.
Proof.
  induction n as [ | n IH]; intros k v Hv Hk; [lia | ].
  simpl. destruct (v / 16 =? 0) eqn:E.
  - simpl. lia.
  - apply Z.eqb_neq in E.
    rewrite hex_loop_app, string_length_app. simpl.
    assert (16 <= v).
    { destruct (Z_lt_le_dec v 16) as [Hlt | ]; [ | assumption].
      exfalso. apply E. apply Z.div_small. lia. }
    destruct k as [ | [ | k]].
    + lia.
    + change (16 ^ Z.of_nat 1) with 16 in Hv. lia.
    + assert (Hq : 0 <= v / 16 < 16 ^ Z.of_nat (S k)).
      { split; [apply Z.div_pos; lia | ].
        apply Z.div_lt_upper_bound; [lia | ].
        replace (Z.of_nat (S (S k))) with (Z.succ (Z.of_nat (S k))) in Hv by lia.
        rewrite Z.pow_succ_r in Hv by lia. lia. }
      assert (Hn : (1 <= S k <= n)%nat) by lia.
      specialize (IH (S k) (v / 16) Hq Hn). lia.
Qed.

Lemma hex_digit_value_digit d :
  0 <= d < 16 -> hex_digit_value (hex_digit d) = d.
Proof.
  intros Hd.
  assert (d = 0 \/ d = 1 \/ d = 2 \/ d = 3 \/ d = 4 \/ d = 5 \/ d = 6 \/
          d = 7 \/ d = 8 \/ d = 9 \/ d = 10 \/ d = 11 \/ d = 12 \/ d = 13 \/
          d = 14 \/ d = 15) as H by lia.
  repeat (destruct H as [-> | H]; [reflexivity | ]). now subst.
Qed.

Lemma hex_value_app s : forall acc t,
  hex_value acc (s ++ t) = hex_value (hex_value acc s) t.
Proof.
  induction s as [ | c s IH]; intros acc t; [reflexivity | ].
  change (hex_value (acc * 16 + hex_digit_value c) (s ++ t) =
          hex_value (hex_value (acc * 16 + hex_digit_value c) s) t).
  apply IH.
Qed.

Lemma hex_loop_value n : forall v,
  0 <= v < 16 ^ Z.of_nat n -> (1 <= n)%nat ->
  hex_value 0 (hex_loop n v EmptyString) = v.
Proof.
  induction n as [ | n IH]; intros v Hv Hn; [lia | ].
  assert (Hd : 0 <= v mod 16 < 16) by (apply Z.mod_pos_bound; lia).
  simpl. destruct (v / 16 =? 0) eqn:E.
  - apply Z.eqb_eq in E. simpl. rewrite hex_digit_value_digit by exact Hd.
    pose proof (Z.div_mod v 16). lia.
  - apply Z.eqb_neq in E.
    rewrite hex_loop_app, hex_value_app. simpl.
    rewrite hex_digit_value_digit by exact Hd.
    destruct n as [ | n].
    + change (16 ^ Z.of_nat 1) with 16 in Hv.
      exfalso. apply E. apply Z.div_small. lia.
    + rewrite IH.
      * pose proof (Z.div_mod v 16). lia.
      * split; [apply Z.div_pos; lia | ].
        apply Z.div_lt_upper_bound; [lia | ].
        replace (Z.of_nat (S (S n))) with (Z.succ (Z.of_nat (S n))) in Hv by lia.
        rewrite Z.pow_succ_r in Hv by lia. lia.
      * lia.
Qed.

Lemma to_uint64_range v : 0 <= to_uint64 v < 16 ^ Z.of_nat 16.
Proof.
  unfold to_uint64. change (16 ^ Z.of_nat 16) with UINT64_MOD.
  apply Z.mod_pos_bound. reflexivity.
Qed.

Lemma to_uint64_small v : is_uint64 v -> to_uint64 v = v.
Proof. intros H. apply Z.mod_small. exact H. Qed.

Lemma PRIx64_length v : (1 <= String.length (PRIx64 v) <= 16)%nat.
Proof.
  unfold PRIx64. apply hex_loop_length; [apply to_uint64_range | lia].
Qed.

Lemma PRIx64_value v : hex_value 0 (PRIx64 v) = to_uint64 v.
Proof.
  unfold PRIx64. apply hex_loop_value; [ | lia].
  pose proof (to_uint64_range v) as H.
  split; [lia | ].
  apply Z.lt_le_trans with (16 ^ Z.of_nat 16); [lia | ].
  apply Z.pow_le_mono_r; lia.
Qed.

Lemma format_0x_PRIx64_length v :
  (String.length (format_0x_PRIx64 v) + 1 <= 19)%nat.
Proof.
  pose proof (PRIx64_length v).
  unfold format_0x_PRIx64. rewrite string_length_app. simpl. lia.
Qed.

Lemma sprintf_19_format v st :
  sprintf 19 (format_0x_PRIx64 v) st = (Done (format_0x_PRIx64 v), st).
Proof.
  unfold sprintf.
  destruct (Nat.leb_spec (String.length (format_0x_PRIx64 v) + 1) 19) as [ | Hgt].
  - reflexivity.
  - pose proof (format_0x_PRIx64_length v). lia.
Qed.

(** C10.  ["0x%" PRIx64] of any value converted to [uint64_t] is ["0x"]
    followed by at least one and at most 16 hexadecimal digits: at most 18
    characters, 19 bytes with the terminating NUL, so [sprintf] into the
    19-byte arrays of [Symbol_repr] stays within bounds. *)
Theorem sprintf_0x_PRIx64_in_bounds (v : Z) (st : state) :
  format_0x_PRIx64 v = ("0x" ++ PRIx64 v)%string /\
  (1 <= String.length (PRIx64 v) <= 16)%nat /\
  hex_value 0 (PRIx64 v) = to_uint64 v /\
  (String.length (format_0x_PRIx64 v) <= 18)%nat /\
  (String.length (format_0x_PRIx64 v) + 1 <= 19)%nat /\
  sprintf 19 (format_0x_PRIx64 v) st = (Done (format_0x_PRIx64 v), st).
Proof.
  split; [reflexivity | ].
  split; [apply PRIx64_length | ].
  split; [apply PRIx64_value | ].
  pose proof (format_0x_PRIx64_length v) as HL.
  split; [lia | ].
  split; [exact HL | apply sprintf_19_format].
Qed.

(** The bound is met: the largest value needs all 19 bytes, and an 18-byte
    array would be overrun. *)
Example sprintf_0x_PRIx64_tight :
  format_0x_PRIx64 (UINT64_MOD - 1) = "0xffffffffffffffff"%string /\
  fst (sprintf 18 (format_0x_PRIx64 (UINT64_MOD - 1)) sample_state) = Undefined.
Proof. split; reflexivity. Qed.

(** ** Strings that are ASCII *)

Lemma bytes_of_app (s t : string) : bytes_of (s ++ t) = bytes_of s ++ bytes_of t.
Proof.
  unfold bytes_of. induction s as [ | c s IH]; [reflexivity | ].
  change (N_of_ascii c :: map N_of_ascii (list_ascii_of_string (s ++ t)) =
          N_of_ascii c :: (map N_of_ascii (list_ascii_of_string s) ++
                           map N_of_ascii (list_ascii_of_string t))).
  now rewrite IH.
Qed.

Lemma utf8_decode_ascii bs : ascii_only bs -> utf8_decode bs = Some bs.
Proof.
  induction 1 as [ | b bs Hb _ IH]; [reflexivity | ].
  simpl. apply N.ltb_lt in Hb. rewrite Hb, IH. reflexivity.
Qed.

Lemma hex_digit_ascii d : (N_of_ascii (hex_digit d) < 128)%N.
Proof.
  unfold hex_digit.
  destruct (nth_in_or_default (Z.to_nat d) hexdigits "0"%char) as [Hin | ->].
  - revert Hin. generalize (nth (Z.to_nat d) hexdigits "0"%char). intros c Hin.
    simpl in Hin.
    repeat (destruct Hin as [<- | Hin]; [reflexivity | ]). destruct Hin.
  - reflexivity.
Qed.

Lemma hex_loop_ascii n : forall v acc,
  ascii_only (bytes_of acc) -> ascii_only (bytes_of (hex_loop n v acc)).
Proof.
  induction n as [ | n IH]; intros v acc Hacc; simpl; [exact Hacc | ].
  assert (H : ascii_only (bytes_of (String (hex_digit (v mod 16)) acc))).
  { constructor; [apply hex_digit_ascii | exact Hacc]. }
  destruct (v / 16 =? 0); [exact H | now apply IH].
Qed.

Lemma format_0x_PRIx64_ascii v : ascii_only (bytes_of (format_0x_PRIx64 v)).
Proof.
  unfold format_0x_PRIx64. rewrite bytes_of_app.
  apply Forall_app. split.
  - repeat constructor.
  - unfold PRIx64. apply hex_loop_ascii. constructor.
Qed.

Section BindingFacts.

Variable SymbolBinding_class : enum_class.
Variable SymbolKind_class : enum_class.
Variable Py_UNICODE_ISPRINTABLE : N -> bool.
Variable Enum_repr : string -> string -> Z -> unicode.

Abbreviation Symbol_get_binding := (Symbol_get_binding SymbolBinding_class).
Abbreviation Symbol_get_kind := (Symbol_get_kind SymbolKind_class).
Abbreviation Symbol_repr :=
  (Symbol_repr SymbolBinding_class SymbolKind_class Py_UNICODE_ISPRINTABLE
     Enum_repr).
Abbreviation Symbol_getter := (Symbol_getter SymbolBinding_class SymbolKind_class).
Abbreviation run :=
  (run SymbolBinding_class SymbolKind_class Py_UNICODE_ISPRINTABLE Enum_repr).
Abbreviation valid_symbol := (valid_symbol SymbolBinding_class SymbolKind_class).
Abbreviation unicode_repr := (unicode_repr Py_UNICODE_ISPRINTABLE).

Lemma decode_replace_format v :
  decode_replace (format_0x_PRIx64 v) = bytes_of (format_0x_PRIx64 v).
Proof.
  unfold decode_replace.
  now rewrite (utf8_decode_ascii _ (format_0x_PRIx64_ascii v)).
Qed.

(** ** Members of an enumeration class *)

Lemma find_member cls v :
  has_value cls v = true ->
  exists n, find (fun m => snd m =? v) (enum_members cls) = Some (n, v) /\
            In (n, v) (enum_members cls).
Proof.
  unfold has_value. induction (enum_members cls) as [ | [n w] ms IH]; simpl.
  - discriminate.
  - destruct (w =? v) eqn:E.
    + intros _. apply Z.eqb_eq in E. subst w. exists n. split; [reflexivity | now left].
    + simpl. intros H. destruct (IH H) as (n' & Hf & Hin).
      exists n'. split; [exact Hf | now right].
Qed.

Lemma call_enum_member cls v st :
  is_uint64 v -> has_value cls v = true ->
  exists n, member_name cls v = Some n /\ In (n, v) (enum_members cls) /\
            PyObject_CallFunction_k cls v st = (Done (PyEnum (enum_name cls) n v), st).
Proof.
  intros Hv Hm. destruct (find_member cls v Hm) as (n & Hf & Hin).
  exists n. unfold member_name, PyObject_CallFunction_k, to_ulong.
  rewrite Z.mod_small by exact Hv. rewrite Hf. now repeat split.
Qed.

(** ** The getters *)

Lemma Symbol_get_name_run st self r :
  symbols st !! sym self = Some r ->
  Symbol_get_name self st = PyUnicode_FromString (name r) st.
Proof.
  intros H. unfold Symbol_get_name, drgn_symbol_name.
  unfold bind at 1. now rewrite (bind_Done _ _ _ _ _ (deref_Some _ _ _ H)).
Qed.

Lemma Symbol_get_address_run st self r :
  symbols st !! sym self = Some r ->
  Symbol_get_address self st = (Done (PyLong (to_uint64 (address r))), st).
Proof.
  intros H. unfold Symbol_get_address, drgn_symbol_address.
  unfold bind at 1. now rewrite (bind_Done _ _ _ _ _ (deref_Some _ _ _ H)).
Qed.

Lemma Symbol_get_size_run st self r :
  symbols st !! sym self = Some r ->
  Symbol_get_size self st = (Done (PyLong (to_uint64 (size r))), st).
Proof.
  intros H. unfold Symbol_get_size, drgn_symbol_size.
  unfold bind at 1. now rewrite (bind_Done _ _ _ _ _ (deref_Some _ _ _ H)).
Qed.

Lemma Symbol_get_binding_run st self r :
  symbols st !! sym self = Some r ->
  Symbol_get_binding self st =
    PyObject_CallFunction_k SymbolBinding_class (binding r) st.
Proof.
  intros H. unfold Symbol_get_binding, drgn_symbol_binding.
  unfold bind at 1. now rewrite (bind_Done _ _ _ _ _ (deref_Some _ _ _ H)).
Qed.

Lemma Symbol_get_kind_run st self r :
  symbols st !! sym self = Some r ->
  Symbol_get_kind self st =
    PyObject_CallFunction_k SymbolKind_class (kind r) st.
Proof.
  intros H. unfold Symbol_get_kind, drgn_symbol_kind.
  unfold bind at 1. now rewrite (bind_Done _ _ _ _ _ (deref_Some _ _ _ H)).
Qed.

(** C7.  On a wrapper of a record of the data model, each getter returns the
    stored field: [name] the text of the name, [address] and [size] the
    stored 64-bit unsigned values, [binding] and [kind] the member of the
    enumeration class whose value is the stored code.  [Symbol_getset] binds
    the five attribute names to these getters. *)
Theorem Symbol_getters_return_fields (st : state) (self : Symbol) (r : drgn_symbol) :
  symbols st !! sym self = Some r ->
  valid_symbol r ->
  (exists u, utf8_decode (bytes_of (name r)) = Some u /\
             Symbol_get_name self st = (Done (PyUnicode u), st)) /\
  (Symbol_get_address self st = (Done (PyLong (address r)), st) /\
   0 <= address r < 2 ^ 64) /\
  (Symbol_get_size self st = (Done (PyLong (size r)), st) /\
   0 <= size r < 2 ^ 64) /\
  (exists n, In (n, binding r) (enum_members SymbolBinding_class) /\
             Symbol_get_binding self st =
               (Done (PyEnum (enum_name SymbolBinding_class) n (binding r)), st)) /\
  (exists n, In (n, kind r) (enum_members SymbolKind_class) /\
             Symbol_get_kind self st =
               (Done (PyEnum (enum_name SymbolKind_class) n (kind r)), st)) /\
  Symbol_getter "name" = Some Symbol_get_name /\
  Symbol_getter "address" = Some Symbol_get_address /\
  Symbol_getter "size" = Some Symbol_get_size /\
  Symbol_getter "binding" = Some Symbol_get_binding /\
  Symbol_getter "kind" = Some Symbol_get_kind.
Proof.
  intros Hr (Ha & Hs & [u Hu] & Hb & Hbv & Hk & Hkv).
  split; [ | split; [ | split; [ | split; [ | split ] ] ] ].
  - exists u. split; [exact Hu | ].
    rewrite (Symbol_get_name_run _ _ _ Hr). unfold PyUnicode_FromString.
    now rewrite Hu.
  - rewrite (Symbol_get_address_run _ _ _ Hr), (to_uint64_small _ Ha).
    split; [reflexivity | exact Ha].
  - rewrite (Symbol_get_size_run _ _ _ Hr), (to_uint64_small _ Hs).
    split; [reflexivity | exact Hs].
  - destruct (call_enum_member _ _ st Hb Hbv) as (n & _ & Hin & Hcall).
    exists n. split; [exact Hin | ].
    now rewrite (Symbol_get_binding_run _ _ _ Hr).
  - destruct (call_enum_member _ _ st Hk Hkv) as (n & _ & Hin & Hcall).
    exists n. split; [exact Hin | ].
    now rewrite (Symbol_get_kind_run _ _ _ Hr).
  - repeat split.
Qed.


(** ** The display form *)

Lemma accessor_run {A} (f : drgn_symbol -> A) st p r :
  symbols st !! p = Some r ->
  (x <- deref p ;; ret (f x)) st = (Done (f r), st).
Proof. intros H. now rewrite (bind_Done _ _ _ _ _ (deref_Some _ _ _ H)). Qed.

Lemma format_Symbol st u a s c1 bn v1 c2 kn v2 :
  PyUnicode_FromFormat Py_UNICODE_ISPRINTABLE Enum_repr
    "Symbol(name=%R, address=%s, size=%s, binding=%R, kind=%R)"
    [ArgObject (PyUnicode u); ArgString a; ArgString s;
     ArgObject (PyEnum c1 bn v1); ArgObject (PyEnum c2 kn v2)] st =
  (Done (PyUnicode
           (bytes_of "Symbol(name=" ++ unicode_repr u ++
            bytes_of ", address=" ++ decode_replace a ++
            bytes_of ", size=" ++ decode_replace s ++
            bytes_of ", binding=" ++ Enum_repr c1 bn v1 ++
            bytes_of ", kind=" ++ Enum_repr c2 kn v2 ++ bytes_of ")")), st).
Proof. reflexivity. Qed.

(** ** What the operations read and what they leave alone *)

Lemma pure_ret {A} (a : A) : pure (ret a).
Proof. now exists (Done a). Qed.

Lemma pure_raise {A} e : pure (@raise A e).
Proof. now exists (Raised e). Qed.

Lemma pure_undefined {A} : pure (@undefined A).
Proof. now exists Undefined. Qed.

Lemma pure_bind {A B} (m : M A) (k : A -> M B) :
  pure m -> (forall a, pure (k a)) -> pure (bind m k).
Proof.
  intros [o Ho] Hk. destruct o as [a | e | ].
  - destruct (Hk a) as [o' Ho']. exists o'. intros st.
    unfold bind. rewrite Ho. apply Ho'.
  - exists (Raised e). intros st. unfold bind. now rewrite Ho.
  - exists Undefined. intros st. unfold bind. now rewrite Ho.
Qed.

Ltac pure_step :=
  first [ apply pure_bind; [ | intros ? ]
        | apply pure_ret | apply pure_raise | apply pure_undefined ].

Lemma pure_PyUnicode_FromString s : pure (PyUnicode_FromString s).
Proof. unfold PyUnicode_FromString. destruct (utf8_decode _); pure_step. Qed.

Lemma pure_PyLong_FromUint64 v : pure (PyLong_FromUint64 v).
Proof. unfold PyLong_FromUint64. pure_step. Qed.

Lemma pure_PyObject_CallFunction_k cls v : pure (PyObject_CallFunction_k cls v).
Proof.
  unfold PyObject_CallFunction_k. destruct (find _ _) as [[n w] | ]; pure_step.
Qed.

Lemma pure_sprintf n s : pure (sprintf n s).
Proof. unfold sprintf. destruct (_ <=? _)%nat; pure_step. Qed.

Lemma pure_PyObject_Repr o :
  pure (PyObject_Repr Py_UNICODE_ISPRINTABLE Enum_repr o).
Proof. destruct o; simpl; pure_step. Qed.

Lemma pure_format_Symbol o1 s1 s2 o2 o3 :
  pure (PyUnicode_FromFormat Py_UNICODE_ISPRINTABLE Enum_repr
          "Symbol(name=%R, address=%s, size=%s, binding=%R, kind=%R)"
          [ArgObject o1; ArgString s1; ArgString s2; ArgObject o2; ArgObject o3]).
Proof.
  unfold PyUnicode_FromFormat. cbn [list_ascii_of_string format_loop].
  repeat first [ apply pure_PyObject_Repr | pure_step ].
Qed.

Lemma pure_same_view {A} p1 p2 (m : M A) : pure m -> same_view p1 p2 m m.
Proof. intros [o Ho] st1 st2 _. rewrite !Ho. now repeat split. Qed.

Lemma same_view_deref p1 p2 : same_view p1 p2 (deref p1) (deref p2).
Proof.
  intros st1 st2 H. unfold deref. rewrite H.
  destruct (symbols st2 !! p2); now repeat split.
Qed.

Lemma same_view_bind {A B} p1 p2 (m1 m2 : M A) (k1 k2 : A -> M B) :
  same_view p1 p2 m1 m2 ->
  (forall a, same_view p1 p2 (k1 a) (k2 a)) ->
  same_view p1 p2 (bind m1 k1) (bind m2 k2).
Proof.
  intros Hm Hk st1 st2 H. destruct (Hm st1 st2 H) as (Hf & H1 & H2).
  unfold bind. destruct (m1 st1) as [o1 s1], (m2 st2) as [o2 s2].
  simpl in *. subst.
  destruct o2; [now apply Hk | now repeat split ..].
Qed.

Ltac view_step :=
  first [ apply pure_same_view;
          first [ apply pure_PyUnicode_FromString
                | apply pure_PyLong_FromUint64
                | apply pure_PyObject_CallFunction_k
                | apply pure_sprintf
                | apply pure_format_Symbol
                | apply pure_ret ]
        | apply same_view_deref
        | apply same_view_bind; [ | intros ? ] ].

Lemma same_view_get_name a b :
  same_view (sym a) (sym b) (Symbol_get_name a) (Symbol_get_name b).
Proof. unfold Symbol_get_name, drgn_symbol_name. repeat view_step. Qed.

Lemma same_view_get_address a b :
  same_view (sym a) (sym b) (Symbol_get_address a) (Symbol_get_address b).
Proof. unfold Symbol_get_address, drgn_symbol_address. repeat view_step. Qed.

Lemma same_view_get_size a b :
  same_view (sym a) (sym b) (Symbol_get_size a) (Symbol_get_size b).
Proof. unfold Symbol_get_size, drgn_symbol_size. repeat view_step. Qed.

Lemma same_view_get_binding a b :
  same_view (sym a) (sym b) (Symbol_get_binding a) (Symbol_get_binding b).
Proof. unfold Symbol_get_binding, drgn_symbol_binding. repeat view_step. Qed.

Lemma same_view_get_kind a b :
  same_view (sym a) (sym b) (Symbol_get_kind a) (Symbol_get_kind b).
Proof. unfold Symbol_get_kind, drgn_symbol_kind. repeat view_step. Qed.

Lemma same_view_repr a b :
  same_view (sym a) (sym b) (Symbol_repr a) (Symbol_repr b).
Proof.
  unfold Symbol_repr, drgn_symbol_name, drgn_symbol_address, drgn_symbol_size.
  repeat first [ apply same_view_get_binding | apply same_view_get_kind
               | view_step ].
Qed.

Lemma same_view_read_only {A} p (m : M A) : same_view p p m m -> read_only m.
Proof. intros H st. now destruct (H st st eq_refl) as (_ & _ & ?). Qed.

Lemma read_only_richcompare self other op :
  read_only (Symbol_richcompare self other op).
Proof.
  unfold Symbol_richcompare, Py_RETURN_NOTIMPLEMENTED.
  destruct (_ || _); [ro_step | ].
  ro_step.
  - unfold as_Symbol. destruct other; ro_step.
  - ro_step.
    + unfold drgn_symbol_eq. repeat ro_step.
    + cbv zeta. unfold Py_RETURN_BOOL.
      match goal with |- read_only (if ?c then _ else _) => destruct c end;
        ro_step.
Qed.

Lemma read_only_run o self : read_only (run o self).
Proof.
  destruct o; simpl.
  - apply (same_view_read_only _ _ (same_view_get_name self self)).
  - apply (same_view_read_only _ _ (same_view_get_address self self)).
  - apply (same_view_read_only _ _ (same_view_get_size self self)).
  - apply (same_view_read_only _ _ (same_view_get_binding self self)).
  - apply (same_view_read_only _ _ (same_view_get_kind self self)).
  - apply (same_view_read_only _ _ (same_view_repr self self)).
  - apply read_only_richcompare.
Qed.

(** C8.  No getter, no [repr] and no comparison writes: the state after the
    call is the state before it, so every record of the store, the one of
    [self] included, keeps its five fields.  The display string is not kept
    anywhere: what [repr] returns is a function of the record that the
    wrapper points to at the time of the call, whichever wrapper and
    whatever the rest of the state. *)
Theorem Symbol_operations_do_not_mutate
    (o : operation) (self : Symbol) (st : state) :
  snd (run o self st) = st /\
  (forall p, symbols (snd (run o self st)) !! p = symbols st !! p) /\
  (forall self2 st2,
     symbols st2 !! sym self2 = symbols st !! sym self ->
     fst (Symbol_repr self2 st2) = fst (Symbol_repr self st)).
Proof.
  pose proof (read_only_run o self st) as H.
  split; [exact H | ].
  split; [intros p; now rewrite H | ].
  intros self2 st2 Heq.
  now destruct (same_view_repr self2 self st2 st Heq) as (? & _ & _).
Qed.

End BindingFacts.

(** Quoting follows Python: single quotes, unless the name has a single
    quote and no double quote; backslashes are doubled. *)
Example unicode_repr_quotes :
  unicode_repr sample_isprintable (bytes_of "main") = bytes_of "'main'" /\
  unicode_repr sample_isprintable (bytes_of "it's") = [34; 105; 116; 39; 115; 34]%N /\
  unicode_repr sample_isprintable (bytes_of "a\b") = bytes_of "'a\\b'".
Proof. repeat split. Qed.

(** By contrast the destructor does write: the record is gone afterwards. *)
Example Symbol_dealloc_writes :
  symbols (snd (Symbol_dealloc wrapper_main_again sample_state)) !! 3%positive = None /\
  ob_refcnt (snd (Symbol_dealloc wrapper_main_again sample_state)) !! 11%positive = None /\
  ob_refcnt (snd (Symbol_wrap true 2%positive 10%positive sample_state)) !! 10%positive = Some 4.
Proof. repeat split. Qed.

(** ** Witnesses on the sample data *)

Lemma sym_main_valid : valid_symbol sample_bindings sample_kinds sym_main.
Proof.
  unfold valid_symbol, is_uint64. simpl.
  repeat split; try reflexivity; try discriminate.
  now eexists.
Qed.

Lemma Symbol_getters_return_fields_witness :
  symbols sample_state !! sym wrapper_main = Some sym_main /\
  valid_symbol sample_bindings sample_kinds sym_main /\
  Symbol_get_address wrapper_main sample_state =
    (Done (PyLong 4096), sample_state).
Proof.
  split; [reflexivity | split; [exact sym_main_valid | ] ].
  apply (Symbol_getters_return_fields sample_bindings sample_kinds
           sample_state wrapper_main sym_main eq_refl sym_main_valid).
Defined.

Lemma Symbol_operations_do_not_mutate_witness :
  symbols sample_state !! sym wrapper_main_again =
    symbols sample_state !! sym wrapper_main /\
  fst (Symbol_repr sample_bindings sample_kinds sample_isprintable
         sample_enum_repr wrapper_main_again sample_state) =
  fst (Symbol_repr sample_bindings sample_kinds sample_isprintable
         sample_enum_repr wrapper_main sample_state).
Proof.
  split; [reflexivity | ].
  apply (proj2 (proj2 (Symbol_operations_do_not_mutate sample_bindings
                         sample_kinds sample_isprintable sample_enum_repr
                         OpRepr wrapper_main sample_state))).
  reflexivity.
Defined.

(** ** The engine *)

Import Engine.

Lemma covers_iff r addr : covers r addr = true <-> in_range_of r addr.
Proof.
  unfold covers, in_range_of.
  rewrite andb_true_iff, Z.leb_le, Z.ltb_lt. reflexivity.
Qed.

Lemma In_insert_by_address x e idx :
  In x (insert_by_address e idx) <-> x = e \/ In x idx.
Proof.
  induction idx as [ | y idx IH]; simpl.
  - intuition.
  - destruct (address (e_record e) <? address (e_record y)); simpl.
    + intuition.
    + rewrite IH. intuition.
Qed.

Lemma In_fold_insert x es : forall acc,
  In x (fold_left (fun idx e => insert_by_address e idx) es acc) <->
  In x es \/ In x acc.
Proof.
  induction es as [ | e es IH]; intros acc; simpl.
  - intuition.
  - rewrite IH, In_insert_by_address. intuition.
Qed.

Lemma In_build tables e :
  In e (build tables) <->
  exists t, In t tables /\ In (e_record e) (records t) /\ e_image e = image t.
Proof.
  unfold build. rewrite In_fold_insert, in_flat_map. simpl.
  split.
  - intros [(t & Ht & He) | []]. exists t. split; [exact Ht | ].
    unfold table_entries in He. apply in_map_iff in He.
    destruct He as (r & <- & Hr). now split.
  - intros (t & Ht & Hr & Hi). left. exists t. split; [exact Ht | ].
    unfold table_entries. apply in_map_iff. exists (e_record e).
    split; [ | exact Hr]. destruct e; simpl in *. now subst.
Qed.

Lemma fold_choose_Some bindings addr idx : forall best e,
  fold_left (choose bindings addr) idx best = Some e ->
  best = Some e \/ (In e idx /\ covers (e_record e) addr = true).
Proof.
  induction idx as [ | x idx IH]; intros best e H; simpl in *.
  - now left.
  - apply IH in H. destruct H as [H | [Hin Hc]].
    + unfold choose in H. destruct (covers (e_record x) addr) eqn:Ex.
      * destruct best as [b | ].
        -- destruct (prefer bindings x b).
           ++ injection H as <-. right. split; [now left | exact Ex].
           ++ now left.
        -- injection H as <-. right. split; [now left | exact Ex].
      * now left.
    + right. split; [now right | exact Hc].
Qed.

Lemma fold_choose_None bindings addr idx : forall best,
  fold_left (choose bindings addr) idx best = None <->
  best = None /\ forall e, In e idx -> covers (e_record e) addr = false.
Proof.
  induction idx as [ | x idx IH]; intros best; simpl.
  - intuition.
  - rewrite IH. unfold choose.
    destruct (covers (e_record x) addr) eqn:Ex.
    + split.
      * intros [H _]. destruct best as [b | ]; [ | discriminate].
        destruct (prefer bindings x b); discriminate.
      * intros [_ H]. specialize (H x (or_introl eq_refl)). congruence.
    + split.
      * intros [Hb H]. split; [exact Hb | ].
        intros e [<- | He]; [exact Ex | now apply H].
      * intros [Hb H]. split; [exact Hb | ]. intros e He. apply H. now right.
Qed.

Lemma find_containing_Some bindings tables addr r :
  find_containing bindings (build tables) addr = Some r ->
  indexed tables r /\ in_range_of r addr.
Proof.
  unfold find_containing. intros H.
  destruct (fold_left _ _ _) as [e | ] eqn:E; [ | discriminate].
  injection H as <-.
  apply fold_choose_Some in E. destruct E as [E | [Hin Hc]]; [discriminate | ].
  apply In_build in Hin. destruct Hin as (t & Ht & Hr & _).
  split; [now exists t | now apply covers_iff].
Qed.

Lemma find_containing_None bindings tables addr :
  find_containing bindings (build tables) addr = None <->
  forall r, indexed tables r -> ~ in_range_of r addr.
Proof.
  unfold find_containing.
  destruct (fold_left _ _ _) as [e | ] eqn:E.
  - split; [discriminate | ]. intros H. exfalso.
    apply fold_choose_Some in E. destruct E as [E | [Hin Hc]]; [discriminate | ].
    apply In_build in Hin. destruct Hin as (t & Ht & Hr & _).
    apply (H (e_record e)); [now exists t | now apply covers_iff].
  - split; [ | reflexivity]. intros _ r (t & Ht & Hr) Hc.
    apply fold_choose_None in E. destruct E as [_ E].
    assert (In (mk_entry (image t) r) (build tables)) as Hin.
    { apply In_build. exists t. now repeat split. }
    specialize (E _ Hin). simpl in E.
    rewrite (proj2 (covers_iff _ _) Hc) in E. discriminate.
Qed.

(** C2, amended.  Whatever [find_containing] returns is a
    record of the index with [address <= addr < address + max(size, 1)]; it
    returns some record exactly when at least one record of the index has
    the address in that range, and not-found exactly when none has; a
    record that is the only one whose range contains the address is the one
    returned; and a record of size 0 contains its start address and nothing
    else. *)
Theorem find_containing_range (bindings : enum_class)
    (tables : list SymbolTable) (addr : Z) :
  (forall r, find_containing bindings (build tables) addr = Some r ->
     indexed tables r /\
     address r <= addr < address r + Z.max (size r) 1) /\
  ((exists r, find_containing bindings (build tables) addr = Some r) <->
   (exists r, indexed tables r /\
              address r <= addr < address r + Z.max (size r) 1)) /\
  (find_containing bindings (build tables) addr = None <->
   forall r, indexed tables r ->
             ~ (address r <= addr < address r + Z.max (size r) 1)) /\
  (forall r, indexed tables r ->
     address r <= addr < address r + Z.max (size r) 1 ->
     (forall r', indexed tables r' ->
        address r' <= addr < address r' + Z.max (size r') 1 -> r' = r) ->
     find_containing bindings (build tables) addr = Some r) /\
  (forall r, size r = 0 ->
     (address r <= addr < address r + Z.max (size r) 1 <-> addr = address r)).
Proof.
  split; [ | split; [ | split; [ | split ] ] ].
  - intros r H. apply (find_containing_Some _ _ _ _ H).
  - split.
    + intros [r H]. exists r. apply (find_containing_Some _ _ _ _ H).
    + intros (r & Hi & Hc).
      destruct (find_containing bindings (build tables) addr) as [r' | ] eqn:E.
      * now exists r'.
      * exfalso. apply (proj1 (find_containing_None _ _ _) E r Hi Hc).
  - apply find_containing_None.
  - intros r Hi Hc Huniq.
    destruct (find_containing bindings (build tables) addr) as [r' | ] eqn:E.
    + destruct (find_containing_Some _ _ _ _ E) as [Hi' Hc'].
      now rewrite (Huniq r' Hi' Hc').
    + exfalso. apply (proj1 (find_containing_None _ _ _) E r Hi Hc).
  - intros r Hz. rewrite Hz. change (Z.max 0 1) with 1. lia.
Qed.

Lemma find_containing_range_witness :
  indexed [sample_table] sym_main /\
  address sym_main <= 4112 < address sym_main + Z.max (size sym_main) 1 /\
  find_containing sample_bindings (build [sample_table]) 4112 = Some sym_main.
Proof.
  assert (Hi : indexed [sample_table] sym_main).
  { exists sample_table. split; now left. }
  assert (Hc : address sym_main <= 4112 <
               address sym_main + Z.max (size sym_main) 1).
  { simpl. lia. }
  split; [exact Hi | split; [exact Hc | ] ].
  apply (proj1 (proj2 (proj2 (proj2
           (find_containing_range sample_bindings [sample_table] 4112))))
           sym_main Hi Hc).
  intros r' (t & [<- | []] & [<- | [<- | []]]) Hr'.
  - reflexivity.
  - simpl in Hr'. lia.
Defined.

(** C2 as stated fails on overlapping records.  A record other than the
    returned one may contain the address too: a zero-size marker at the start of [main] is preferred to [main], so
    "returns [r] iff [r]'s range contains the address" fails for [main]. *)
Lemma find_containing_overlap_counterexample :
  ~ (find_containing sample_bindings (build [overlap_table]) 4096 = Some sym_main <->
     address sym_main <= 4096 < address sym_main + Z.max (size sym_main) 1).
Proof.
  intros [_ H].
  assert (Hc : address sym_main <= 4096 <
               address sym_main + Z.max (size sym_main) 1) by (simpl; lia).
  specialize (H Hc). vm_compute in H. discriminate.
Qed.

(** The scenario of the design document: one table with [main] at 0x1000
    and [helper] at 0x1050.  The last address of [helper] is 0x106f; 0x1070
    is one past its end. *)
Example find_containing_scenario :
  find_containing sample_bindings (build [sample_table]) 4112 = Some sym_main /\
  find_containing sample_bindings (build [sample_table]) 4207 = Some sym_helper /\
  find_containing sample_bindings (build [sample_table]) 4208 = None /\
  find_containing sample_bindings (build [sample_table]) 8192 = None /\
  find_containing sample_bindings (build [overlap_table]) 4096 = Some sym_marker.
Proof. repeat split. Qed.

(** C6, amended.  Construction
    fails with [InvalidSymbol] exactly when [address + size] overflows 64
    bits or the binding or the kind is outside its enumerated set; a record
    that was constructed carries the five inputs and its [address + size]
    does not overflow. *)
Theorem symbol_new_invalid_iff (bindings kinds : enum_class)
    (n : string) (a s b k : Z) :
  is_uint64 a -> is_uint64 s ->
  (symbol_new bindings kinds n a s b k = inl InvalidSymbol <->
   2 ^ 64 <= a + s \/ has_value bindings b = false \/ has_value kinds k = false) /\
  (forall r, symbol_new bindings kinds n a s b k = inr r ->
     r = mk_drgn_symbol n a s b k /\ address r + size r < 2 ^ 64 /\
     has_value bindings b = true /\ has_value kinds k = true).
Proof.
  intros _ _. unfold symbol_new. change UINT64_MOD with (2 ^ 64).
  destruct (Z.leb_spec (2 ^ 64) (a + s)) as [Ho | Ho].
  - split; [ | discriminate]. split; [now left | reflexivity].
  - destruct (has_value bindings b), (has_value kinds k); simpl; split;
      try (split; [intros _; tauto | reflexivity]);
      try discriminate;
      try (split; [discriminate | intros [? | [? | ?]]; try discriminate; lia]).
    intros r H. injection H as <-. simpl. now repeat split.
Qed.

Lemma symbol_new_invalid_iff_witness :
  is_uint64 4096 /\ is_uint64 80 /\
  symbol_new sample_bindings sample_kinds "main" 4096 80 2 3 = inr sym_main /\
  address sym_main + size sym_main < 2 ^ 64.
Proof.
  assert (H1 : is_uint64 4096) by (unfold is_uint64; split; [discriminate | reflexivity]).
  assert (H2 : is_uint64 80) by (unfold is_uint64; split; [discriminate | reflexivity]).
  split; [exact H1 | split; [exact H2 | split; [reflexivity | ] ] ].
  apply (proj2 (symbol_new_invalid_iff sample_bindings sample_kinds
                  "main" 4096 80 2 3 H1 H2) sym_main eq_refl).
Defined.

(** C6 as stated fails: a binding outside the enumerated set fails
    construction although nothing overflows. *)
Lemma symbol_new_invalid_without_overflow :
  ~ (symbol_new sample_bindings sample_kinds "x" 4096 16 99 3 = inl InvalidSymbol <->
     2 ^ 64 <= 4096 + 16).
Proof.
  intros [H _]. specialize (H eq_refl). vm_compute in H. now apply H.
Qed.

(** * Further properties of the binding *)

(** ** Wrappers and the reference they hold *)

Lemma state_eta st : mk_state (symbols st) (ob_refcnt st) = st.
Proof. now destruct st. Qed.

Lemma Symbol_wrap_run st s p n :
  ob_refcnt st !! p = Some n ->
  Symbol_wrap true s p st =
    (Done (PySymbol (mk_Symbol s p)),
     mk_state (symbols st) (<[p := n + 1]> (ob_refcnt st))).
Proof.
  intros H. unfold Symbol_wrap, bind, Py_INCREF. now rewrite H.
Qed.

Lemma Symbol_dealloc_run st self n :
  ob_refcnt st !! prog self = Some n ->
  Symbol_dealloc self st =
    (Done tt,
     mk_state (delete (sym self) (symbols st))
              (if n - 1 =? 0 then delete (prog self) (ob_refcnt st)
               else <[prog self := n - 1]> (ob_refcnt st))).
Proof.
  intros H. unfold Symbol_dealloc, bind, drgn_symbol_destroy, Py_XDECREF.
  simpl. rewrite H. now destruct (n - 1 =? 0).
Qed.

Lemma drop_refs_run p : forall (k : nat) st n,
  ob_refcnt st !! p = Some n -> Z.of_nat k < n ->
  drop_refs k p st =
    (Done tt, mk_state (symbols st) (<[p := n - Z.of_nat k]> (ob_refcnt st))).
Proof.
  induction k as [ | k IH]; intros st n Hn Hk.
  - simpl. unfold ret. rewrite Z.sub_0_r, (insert_id _ _ _ Hn).
    now rewrite state_eta.
  - cbn [drop_refs]. unfold bind at 1. unfold Py_XDECREF. rewrite Hn.
    destruct (Z.eqb_spec (n - 1) 0) as [E | E]; [lia | ].
    rewrite (IH _ (n - 1)).
    + simpl. rewrite insert_insert_eq. do 3 f_equal. lia.
    + simpl. apply lookup_insert_eq.
    + lia.
Qed.

(** X1.  [Symbol_wrap] takes exactly one reference to the program when the
    allocation succeeds, and none when it fails: on success the result is a
    [Symbol] with the two pointers it was given, the count of the program is
    one more, the counts of other objects and all records are as before; on
    failure it returns NULL with [MemoryError] and the state is untouched. *)
Theorem Symbol_wrap_takes_one_reference
    (st : state) (s p : loc) (n : Z) :
  ob_refcnt st !! p = Some n ->
  (exists st',
     Symbol_wrap true s p st = (Done (PySymbol (mk_Symbol s p)), st') /\
     symbols st' = symbols st /\
     ob_refcnt st' !! p = Some (n + 1) /\
     (forall q, q <> p -> ob_refcnt st' !! q = ob_refcnt st !! q)) /\
  Symbol_wrap false s p st = (Raised MemoryError, st).
Proof.
  intros H. split; [ | reflexivity].
  eexists. split; [apply (Symbol_wrap_run _ _ _ _ H) | ]. simpl.
  split; [reflexivity | ].
  split; [apply lookup_insert_eq | ].
  intros q Hq. now apply lookup_insert_ne.
Qed.

Lemma Symbol_wrap_takes_one_reference_witness :
  ob_refcnt sample_state !! 10%positive = Some 3 /\
  Symbol_wrap false 2%positive 10%positive sample_state =
    (Raised MemoryError, sample_state).
Proof.
  split; [reflexivity | ].
  apply (Symbol_wrap_takes_one_reference sample_state 2%positive 10%positive 3
           eq_refl).
Defined.

(** X2.  [Symbol_dealloc] destroys the record of the wrapper and gives back
    its reference: afterwards the record is gone and every other record is
    as before; the count of the program is one less, the program goes away
    if that was the last reference, and no other count changes. *)
Theorem Symbol_dealloc_releases (st : state) (self : Symbol) (n : Z) :
  ob_refcnt st !! prog self = Some n ->
  exists st',
    Symbol_dealloc self st = (Done tt, st') /\
    symbols st' !! sym self = None /\
    (forall q, q <> sym self -> symbols st' !! q = symbols st !! q) /\
    ob_refcnt st' !! prog self = (if n =? 1 then None else Some (n - 1)) /\
    (forall q, q <> prog self -> ob_refcnt st' !! q = ob_refcnt st !! q).
Proof.
  intros H. eexists. split; [apply (Symbol_dealloc_run _ _ _ H) | ]. simpl.
  split; [apply lookup_delete_eq | ].
  split; [intros q Hq; now apply lookup_delete_ne | ].
  destruct (Z.eqb_spec (n - 1) 0) as [E | E], (Z.eqb_spec n 1) as [E1 | E1];
    try lia.
  - split; [apply lookup_delete_eq | ].
    intros q Hq. now apply lookup_delete_ne.
  - split; [apply lookup_insert_eq | ].
    intros q Hq. now apply lookup_insert_ne.
Qed.

Lemma Symbol_dealloc_releases_witness :
  ob_refcnt sample_state !! prog wrapper_main_again = Some 1 /\
  exists st',
    Symbol_dealloc wrapper_main_again sample_state = (Done tt, st') /\
    symbols st' !! sym wrapper_main_again = None /\
    (forall q, q <> sym wrapper_main_again ->
               symbols st' !! q = symbols sample_state !! q) /\
    ob_refcnt st' !! prog wrapper_main_again = None /\
    (forall q, q <> prog wrapper_main_again ->
               ob_refcnt st' !! q = ob_refcnt sample_state !! q).
Proof.
  split; [reflexivity | ].
  apply (Symbol_dealloc_releases sample_state wrapper_main_again 1 eq_refl).
Defined.

(** X3.  Wrapping a record and then deallocating the wrapper leaves the
    reference counts exactly as they were before the wrap (for a program
    that had at least one reference), and the record destroyed. *)
Theorem Symbol_wrap_dealloc_restores_counts
    (st : state) (s p : loc) (n : Z) :
  ob_refcnt st !! p = Some n ->
  1 <= n ->
  exists w st1 st2,
    Symbol_wrap true s p st = (Done (PySymbol w), st1) /\
    Symbol_dealloc w st1 = (Done tt, st2) /\
    ob_refcnt st2 = ob_refcnt st /\
    symbols st2 = delete s (symbols st).
Proof.
  intros H Hn. eexists _, _, _.
  split; [apply (Symbol_wrap_run _ _ _ _ H) | ].
  split.
  - apply Symbol_dealloc_run with (n := n + 1). simpl. apply lookup_insert_eq.
  - simpl. destruct (Z.eqb_spec (n + 1 - 1) 0) as [E | E]; [lia | ].
    split; [ | reflexivity].
    rewrite insert_insert_eq. replace (n + 1 - 1) with n by lia.
    now apply insert_id.
Qed.

Lemma Symbol_wrap_dealloc_restores_counts_witness :
  ob_refcnt sample_state !! 10%positive = Some 3 /\ 1 <= 3 /\
  exists w st1 st2,
    Symbol_wrap true 2%positive 10%positive sample_state = (Done (PySymbol w), st1) /\
    Symbol_dealloc w st1 = (Done tt, st2) /\
    ob_refcnt st2 = ob_refcnt sample_state /\
    symbols st2 = delete 2%positive (symbols sample_state).
Proof.
  assert (H : 1 <= 3) by lia.
  split; [reflexivity | split; [exact H | ] ].
  apply (Symbol_wrap_dealloc_restores_counts sample_state 2%positive
           10%positive 3 eq_refl H).
Defined.

(** X4.  A wrapper keeps its program alive: once a record is wrapped, all
    the [k] references that existed before can be released and the program
    is still there, held by the wrapper alone; it goes away when the wrapper
    is deallocated. *)
Theorem Symbol_wrap_keeps_program_alive
    (st : state) (s p : loc) (k : nat) :
  ob_refcnt st !! p = Some (Z.of_nat k) ->
  (1 <= k)%nat ->
  exists w st1 st2 st3,
    Symbol_wrap true s p st = (Done (PySymbol w), st1) /\
    drop_refs k p st1 = (Done tt, st2) /\
    ob_refcnt st2 !! p = Some 1 /\
    symbols st2 = symbols st /\
    Symbol_dealloc w st2 = (Done tt, st3) /\
    ob_refcnt st3 !! p = None.
Proof.
  intros H Hk. eexists _, _, _, _.
  split; [apply (Symbol_wrap_run _ _ _ _ H) | ].
  split.
  { apply drop_refs_run with (n := Z.of_nat k + 1).
    - simpl. apply lookup_insert_eq.
    - lia. }
  simpl. rewrite insert_insert_eq.
  replace (Z.of_nat k + 1 - Z.of_nat k) with 1 by lia.
  split; [apply lookup_insert_eq | ].
  split; [reflexivity | ].
  split.
  { apply Symbol_dealloc_run with (n := 1). simpl. apply lookup_insert_eq. }
  simpl. apply lookup_delete_eq.
Qed.

Lemma Symbol_wrap_keeps_program_alive_witness :
  ob_refcnt sample_state !! 10%positive = Some (Z.of_nat 3) /\ (1 <= 3)%nat /\
  exists w st1 st2 st3,
    Symbol_wrap true 2%positive 10%positive sample_state = (Done (PySymbol w), st1) /\
    drop_refs 3 10%positive st1 = (Done tt, st2) /\
    ob_refcnt st2 !! 10%positive = Some 1 /\
    symbols st2 = symbols sample_state /\
    Symbol_dealloc w st2 = (Done tt, st3) /\
    ob_refcnt st3 !! 10%positive = None.
Proof.
  assert (H : (1 <= 3)%nat) by lia.
  split; [reflexivity | split; [exact H | ] ].
  apply (Symbol_wrap_keeps_program_alive sample_state 2%positive 10%positive 3
           eq_refl H).
Defined.

(** ** What an operation depends on *)

Lemma reads_only_pure {A} ps (m : M A) : pure m -> reads_only ps m.
Proof. intros [o Ho] st1 st2 _. rewrite !Ho. now repeat split. Qed.

Lemma reads_only_deref ps p : In p ps -> reads_only ps (deref p).
Proof.
  intros Hp st1 st2 H. unfold deref. rewrite (H p Hp).
  destruct (symbols st2 !! p); now repeat split.
Qed.

Lemma reads_only_bind {A B} ps (m : M A) (k : A -> M B) :
  reads_only ps m -> (forall a, reads_only ps (k a)) ->
  reads_only ps (bind m k).
Proof.
  intros Hm Hk st1 st2 H. destruct (Hm st1 st2 H) as (Hf & H1 & H2).
  unfold bind. destruct (m st1) as [o1 s1], (m st2) as [o2 s2].
  simpl in *. subst.
  destruct o2; [now apply Hk | now repeat split ..].
Qed.

Lemma reads_only_same_view {A} ps p (m : M A) :
  same_view p p m m -> In p ps -> reads_only ps m.
Proof. intros Hm Hp st1 st2 H. apply Hm. now apply H. Qed.

Lemma reads_only_drgn_symbol_eq ps a b :
  In a ps -> In b ps -> reads_only ps (drgn_symbol_eq a b).
Proof.
  intros Ha Hb. unfold drgn_symbol_eq.
  apply reads_only_bind; [now apply reads_only_deref | intros ra].
  apply reads_only_bind; [now apply reads_only_deref | intros rb].
  apply reads_only_pure, pure_ret.
Qed.

Lemma pure_Py_RETURN_BOOL c : pure (Py_RETURN_BOOL c).
Proof. unfold Py_RETURN_BOOL. destruct c; apply pure_ret. Qed.

Lemma reads_only_richcompare self other op :
  reads_only (footprint self (Some other)) (Symbol_richcompare self other op).
Proof.
  unfold Symbol_richcompare, Py_RETURN_NOTIMPLEMENTED.
  destruct (_ || _) eqn:E; [apply reads_only_pure, pure_ret | ].
  destruct other; try discriminate E.
  change (reads_only (footprint self (Some (PySymbol s)))
            (bind (drgn_symbol_eq (sym self) (sym s))
                  (fun e => Py_RETURN_BOOL (if op =? Py_NE then negb e else e)))).
  apply reads_only_bind.
  - apply reads_only_drgn_symbol_eq; simpl; tauto.
  - intros e. apply reads_only_pure, pure_Py_RETURN_BOOL.
Qed.

Lemma drgn_symbol_eq_subst st a a' b b' :
  symbols st !! a = symbols st !! a' ->
  symbols st !! b = symbols st !! b' ->
  drgn_symbol_eq a b st = drgn_symbol_eq a' b' st.
Proof.
  intros Ha Hb. unfold drgn_symbol_eq, bind, deref. rewrite Ha.
  destruct (symbols st !! a'); [ | reflexivity]. now rewrite Hb.
Qed.

Lemma richcompare_subst st a a' b b' op :
  symbols st !! sym a = symbols st !! sym a' ->
  symbols st !! sym b = symbols st !! sym b' ->
  Symbol_richcompare a (PySymbol b) op st =
  Symbol_richcompare a' (PySymbol b') op st.
Proof.
  intros Ha Hb. unfold Symbol_richcompare.
  change (PyObject_TypeCheck (PySymbol b) Symbol_type) with true.
  change (PyObject_TypeCheck (PySymbol b') Symbol_type) with true.
  destruct (negb true || _); [reflexivity | ].
  change ((e <- drgn_symbol_eq (sym a) (sym b) ;;
           Py_RETURN_BOOL (if op =? Py_NE then negb e else e)) st =
          (e <- drgn_symbol_eq (sym a') (sym b') ;;
           Py_RETURN_BOOL (if op =? Py_NE then negb e else e)) st).
  unfold bind. now rewrite (drgn_symbol_eq_subst st _ _ _ _ Ha Hb).
Qed.

Lemma richcompare_self_subst st a a' other op :
  symbols st !! sym a = symbols st !! sym a' ->
  Symbol_richcompare a other op st = Symbol_richcompare a' other op st.
Proof.
  intros Ha. destruct other; try reflexivity.
  now apply richcompare_subst.
Qed.

Lemma same_fields_eq ra rb : same_fields ra rb -> ra = rb.
Proof.
  destruct ra, rb. unfold same_fields. simpl.
  intros (-> & -> & -> & -> & ->). reflexivity.
Qed.

Lemma equals_True_same_record st a b ra rb :
  symbols st !! sym a = Some ra -> symbols st !! sym b = Some rb ->
  equals st a b = Done Py_True -> ra = rb.
Proof.
  intros Ha Hb H.
  destruct (richcompare_symbols st a b ra rb Py_EQ Ha Hb (or_introl eq_refl))
    as (e & He & Hrun).
  unfold equals in H. rewrite Hrun in H. simpl in H.
  destruct e; [ | discriminate]. apply same_fields_eq. now apply He.
Qed.

Section BindingMore.

Variable SymbolBinding_class : enum_class.
Variable SymbolKind_class : enum_class.
Variable Py_UNICODE_ISPRINTABLE : N -> bool.
Variable Enum_repr : string -> string -> Z -> unicode.

Abbreviation Symbol_get_binding := (Symbol_get_binding SymbolBinding_class).
Abbreviation Symbol_get_kind := (Symbol_get_kind SymbolKind_class).
Abbreviation Symbol_repr :=
  (Symbol_repr SymbolBinding_class SymbolKind_class Py_UNICODE_ISPRINTABLE
     Enum_repr).
Abbreviation run :=
  (run SymbolBinding_class SymbolKind_class Py_UNICODE_ISPRINTABLE Enum_repr).
Abbreviation unicode_repr := (unicode_repr Py_UNICODE_ISPRINTABLE).
Abbreviation PyObject_Repr := (PyObject_Repr Py_UNICODE_ISPRINTABLE Enum_repr).

Lemma run_reads_only o self : reads_only (operation_footprint o self) (run o self).
Proof.
  destruct o; simpl;
    try (eapply reads_only_same_view; [ | now left ]).
  - apply (same_view_get_name self self).
  - apply (same_view_get_address self self).
  - apply (same_view_get_size self self).
  - apply (same_view_get_binding _ self self).
  - apply (same_view_get_kind _ self self).
  - apply (same_view_repr _ _ _ _ self self).
  - apply reads_only_richcompare.
Qed.

(** X5.  The outcome of every exposed operation depends only on the record
    the wrapper points to and, for a comparison with another Symbol, on the
    record of that one: two states that hold the same records at these
    locations give the same result, whatever else differs (other records,
    reference counts). *)
Theorem Symbol_operation_footprint
    (o : operation) (self : Symbol) (st1 st2 : state) :
  (forall p, In p (operation_footprint o self) ->
             symbols st1 !! p = symbols st2 !! p) ->
  fst (run o self st1) = fst (run o self st2).
Proof. intros H. now destruct (run_reads_only o self st1 st2 H). Qed.

(** X6.  Deallocating one wrapper does not disturb the others: every
    operation on a wrapper whose records are not the destroyed one returns
    after the deallocation what it returned before. *)
Theorem Symbol_dealloc_other_symbols
    (victim self : Symbol) (o : operation) (st : state) (n : Z) :
  ob_refcnt st !! prog victim = Some n ->
  ~ In (sym victim) (operation_footprint o self) ->
  exists st',
    Symbol_dealloc victim st = (Done tt, st') /\
    fst (run o self st') = fst (run o self st).
Proof.
  intros Hn Hnot. eexists. split; [apply (Symbol_dealloc_run _ _ _ Hn) | ].
  apply (run_reads_only o self). intros p Hp. simpl.
  apply lookup_delete_ne. intros E. apply Hnot. now rewrite E.
Qed.

(** X7.  Whatever the operand and the opcode, a comparison on live records
    returns one of [NotImplemented], [True], [False] and never raises; it is
    [NotImplemented] exactly when the operand is not a [Symbol] or the
    opcode is neither [Py_EQ] nor [Py_NE]. *)
Theorem Symbol_richcompare_outcome
    (st : state) (self : Symbol) (other : PyObject) (op : Z) :
  is_Some (symbols st !! sym self) ->
  (forall b, other = PySymbol b -> is_Some (symbols st !! sym b)) ->
  exists x,
    Symbol_richcompare self other op st = (Done x, st) /\
    (x = Py_NotImplemented \/ x = Py_True \/ x = Py_False) /\
    (x = Py_NotImplemented <->
     Py_TYPE other <> Symbol_type \/ (op <> Py_EQ /\ op <> Py_NE)).
Proof.
  intros [ra Ha] Hother.
  assert (Hns : Py_TYPE other <> Symbol_type ->
                Symbol_richcompare self other op st = (Done Py_NotImplemented, st)).
  { intros Hv. destruct other; try reflexivity. now elim Hv. }
  destruct other as [ | | | | v | u | c m v | b];
    try (exists Py_NotImplemented;
         split; [apply Hns; discriminate | ];
         split; [now left | ];
         split; [intros _; left; discriminate | reflexivity]).
  destruct (Hother b eq_refl) as [rb Hb].
  destruct (Z.eqb_spec op Py_EQ) as [E1 | E1];
    [ | destruct (Z.eqb_spec op Py_NE) as [E2 | E2] ].
  - destruct (richcompare_symbols st self b ra rb op Ha Hb (or_introl E1))
      as (e & _ & Hrun).
    eexists. split; [exact Hrun | ].
    split; [destruct (if op =? Py_NE then negb e else e); simpl; tauto | ].
    split.
    + destruct (if op =? Py_NE then negb e else e); discriminate.
    + intros [H | [H _]]; [now elim H | now elim H].
  - destruct (richcompare_symbols st self b ra rb op Ha Hb (or_intror E2))
      as (e & _ & Hrun).
    eexists. split; [exact Hrun | ].
    split; [destruct (if op =? Py_NE then negb e else e); simpl; tauto | ].
    split.
    + destruct (if op =? Py_NE then negb e else e); discriminate.
    + intros [H | [_ H]]; [now elim H | now elim H].
  - exists Py_NotImplemented. split.
    + unfold Symbol_richcompare.
      apply Z.eqb_neq in E1. apply Z.eqb_neq in E2. now rewrite E1, E2.
    + split; [now left | ]. split; [intros _; now right | reflexivity].
Qed.

(** X8.  Symbols that compare equal cannot be told apart: if [a == b] is
    [True], every getter, [repr] and every comparison returns on [a] what it
    returns on [b], and any comparison against [a] returns what the same
    comparison against [b] returns. *)
Theorem Symbol_equal_indistinguishable
    (st : state) (a b : Symbol) (ra rb : drgn_symbol) :
  symbols st !! sym a = Some ra ->
  symbols st !! sym b = Some rb ->
  equals st a b = Done Py_True ->
  (forall o, fst (run o a st) = fst (run o b st)) /\
  (forall c op, Symbol_richcompare c (PySymbol a) op st =
                Symbol_richcompare c (PySymbol b) op st).
Proof.
  intros Ha Hb H.
  assert (Heq : symbols st !! sym a = symbols st !! sym b).
  { rewrite Ha, Hb. f_equal. apply (equals_True_same_record st a b); assumption. }
  split.
  - intros o. destruct o; simpl.
    + apply (same_view_get_name a b st st Heq).
    + apply (same_view_get_address a b st st Heq).
    + apply (same_view_get_size a b st st Heq).
    + apply (same_view_get_binding _ a b st st Heq).
    + apply (same_view_get_kind _ a b st st Heq).
    + apply (same_view_repr _ _ _ _ a b st st Heq).
    + f_equal. now apply richcompare_self_subst.
  - intros c op. now apply richcompare_subst.
Qed.

End BindingMore.

Lemma Symbol_operation_footprint_witness :
  (forall p,
     In p (operation_footprint
             (OpRichcompare (PySymbol wrapper_helper) Py_EQ) wrapper_main) ->
     symbols sample_state !! p =
     symbols (mk_state (symbols sample_state) ∅) !! p) /\
  fst (run sample_bindings sample_kinds sample_isprintable sample_enum_repr
         (OpRichcompare (PySymbol wrapper_helper) Py_EQ) wrapper_main
         sample_state) =
  fst (run sample_bindings sample_kinds sample_isprintable sample_enum_repr
         (OpRichcompare (PySymbol wrapper_helper) Py_EQ) wrapper_main
         (mk_state (symbols sample_state) ∅)).
Proof.
  split; [intros p _; reflexivity | ].
  apply (Symbol_operation_footprint sample_bindings sample_kinds
           sample_isprintable sample_enum_repr).
  intros p _. reflexivity.
Defined.

Lemma Symbol_dealloc_other_symbols_witness :
  ob_refcnt sample_state !! prog wrapper_main_again = Some 1 /\
  ~ In (sym wrapper_main_again) (operation_footprint OpRepr wrapper_main) /\
  exists st',
    Symbol_dealloc wrapper_main_again sample_state = (Done tt, st') /\
    fst (run sample_bindings sample_kinds sample_isprintable sample_enum_repr
           OpRepr wrapper_main st') =
    fst (run sample_bindings sample_kinds sample_isprintable sample_enum_repr
           OpRepr wrapper_main sample_state).
Proof.
  assert (H : ~ In (sym wrapper_main_again)
                (operation_footprint OpRepr wrapper_main)).
  { simpl. intros [E | []]. discriminate E. }
  split; [reflexivity | split; [exact H | ] ].
  apply (Symbol_dealloc_other_symbols sample_bindings sample_kinds
           sample_isprintable sample_enum_repr
           wrapper_main_again wrapper_main OpRepr sample_state 1 eq_refl H).
Defined.

Lemma Symbol_richcompare_outcome_witness :
  is_Some (symbols sample_state !! sym wrapper_main) /\
  (forall b, PySymbol wrapper_helper = PySymbol b ->
             is_Some (symbols sample_state !! sym b)) /\
  exists x,
    Symbol_richcompare wrapper_main (PySymbol wrapper_helper) 7 sample_state =
      (Done x, sample_state) /\
    (x = Py_NotImplemented \/ x = Py_True \/ x = Py_False) /\
    (x = Py_NotImplemented <->
     Py_TYPE (PySymbol wrapper_helper) <> Symbol_type \/
     (7 <> Py_EQ /\ 7 <> Py_NE)).
Proof.
  assert (H1 : is_Some (symbols sample_state !! sym wrapper_main))
    by (eexists; reflexivity).
  assert (H2 : forall b, PySymbol wrapper_helper = PySymbol b ->
                         is_Some (symbols sample_state !! sym b)).
  { intros b E. injection E as <-. eexists; reflexivity. }
  split; [exact H1 | split; [exact H2 | ] ].
  apply (Symbol_richcompare_outcome sample_state wrapper_main
           (PySymbol wrapper_helper) 7 H1 H2).
Defined.

Lemma Symbol_equal_indistinguishable_witness :
  symbols sample_state !! sym wrapper_main = Some sym_main /\
  symbols sample_state !! sym wrapper_main_again = Some sym_main /\
  equals sample_state wrapper_main wrapper_main_again = Done Py_True /\
  fst (run sample_bindings sample_kinds sample_isprintable sample_enum_repr
         OpRepr wrapper_main sample_state) =
  fst (run sample_bindings sample_kinds sample_isprintable sample_enum_repr
         OpRepr wrapper_main_again sample_state).
Proof.
  split; [reflexivity | split; [reflexivity | split; [reflexivity | ] ] ].
  apply (proj1 (Symbol_equal_indistinguishable sample_bindings sample_kinds
                  sample_isprintable sample_enum_repr sample_state
                  wrapper_main wrapper_main_again sym_main sym_main
                  eq_refl eq_refl eq_refl)).
Defined.

(** ** Errors of the getters and of [repr] *)

Lemma bind_Raised {A B} (m : M A) (k : A -> M B) st e st' :
  m st = (Raised e, st') -> bind m k st = (Raised e, st').
Proof. intros H. unfold bind. now rewrite H. Qed.

Lemma member_name_None cls v :
  member_name cls v = None <-> has_value cls v = false.
Proof.
  unfold member_name, has_value.
  induction (enum_members cls) as [ | [n w] ms IH]; simpl.
  - tauto.
  - destruct (w =? v); simpl; [ | exact IH]. split; discriminate.
Qed.

Lemma member_name_Some cls v n :
  member_name cls v = Some n ->
  In (n, v) (enum_members cls) /\ has_value cls v = true.
Proof.
  intros H. split.
  - unfold member_name in H.
    destruct (find _ _) as [[n' w] | ] eqn:E; [ | discriminate].
    simpl in H. injection H as ->.
    apply find_some in E. destruct E as [Hin E]. simpl in E.
    apply Z.eqb_eq in E. now subst.
  - destruct (has_value cls v) eqn:E; [reflexivity | ].
    apply member_name_None in E. congruence.
Qed.

Lemma call_enum_outcome cls v st :
  PyObject_CallFunction_k cls v st =
    (match member_name cls (to_ulong v) with
     | Some n => Done (PyEnum (enum_name cls) n (to_ulong v))
     | None => Raised ValueError
     end, st).
Proof.
  unfold PyObject_CallFunction_k, member_name.
  destruct (find _ _) as [[n w] | ] eqn:E; simpl; [ | reflexivity].
  apply find_some in E. destruct E as [_ E]. simpl in E.
  apply Z.eqb_eq in E. now subst.
Qed.

Section BindingErrors.

Variable SymbolBinding_class : enum_class.
Variable SymbolKind_class : enum_class.
Variable Py_UNICODE_ISPRINTABLE : N -> bool.
Variable Enum_repr : string -> string -> Z -> unicode.

Abbreviation Symbol_get_binding := (Symbol_get_binding SymbolBinding_class).
Abbreviation Symbol_get_kind := (Symbol_get_kind SymbolKind_class).
Abbreviation Symbol_repr :=
  (Symbol_repr SymbolBinding_class SymbolKind_class Py_UNICODE_ISPRINTABLE
     Enum_repr).
Abbreviation unicode_repr := (unicode_repr Py_UNICODE_ISPRINTABLE).
Abbreviation PyObject_Repr := (PyObject_Repr Py_UNICODE_ISPRINTABLE Enum_repr).

Abbreviation display :=
  (display_text SymbolBinding_class SymbolKind_class Py_UNICODE_ISPRINTABLE
     Enum_repr).

Lemma Symbol_repr_eval st self r :
  symbols st !! sym self = Some r ->
  Symbol_repr self st =
    (match utf8_decode (bytes_of (name r)) with
     | None => Raised UnicodeDecodeError
     | Some u =>
       match member_name SymbolBinding_class (to_ulong (binding r)) with
       | None => Raised ValueError
       | Some bn =>
         match member_name SymbolKind_class (to_ulong (kind r)) with
         | None => Raised ValueError
         | Some kn => Done (PyUnicode (display r u bn kn))
         end
       end
     end, st).
Proof.
  intros Hr. unfold Symbol_repr.
  unfold drgn_symbol_name, drgn_symbol_address, drgn_symbol_size.
  rewrite (bind_Done _ _ _ _ _ (accessor_run name _ _ _ Hr)).
  destruct (utf8_decode (bytes_of (name r))) as [u | ] eqn:Hu.
  2: { apply bind_Raised. unfold PyUnicode_FromString. now rewrite Hu. }
  assert (Hn : PyUnicode_FromString (name r) st = (Done (PyUnicode u), st)).
  { unfold PyUnicode_FromString. now rewrite Hu. }
  rewrite (bind_Done _ _ _ _ _ Hn).
  pose proof (Symbol_get_binding_run SymbolBinding_class _ _ _ Hr) as Hb.
  rewrite call_enum_outcome in Hb.
  destruct (member_name SymbolBinding_class (to_ulong (binding r))) as [bn | ].
  2: { now apply bind_Raised. }
  rewrite (bind_Done _ _ _ _ _ Hb).
  pose proof (Symbol_get_kind_run SymbolKind_class _ _ _ Hr) as Hk.
  rewrite call_enum_outcome in Hk.
  destruct (member_name SymbolKind_class (to_ulong (kind r))) as [kn | ].
  2: { now apply bind_Raised. }
  rewrite (bind_Done _ _ _ _ _ Hk).
  rewrite (bind_Done _ _ _ _ _ (accessor_run address _ _ _ Hr)).
  rewrite (bind_Done _ _ _ _ _ (sprintf_19_format _ _)).
  rewrite (bind_Done _ _ _ _ _ (accessor_run size _ _ _ Hr)).
  rewrite (bind_Done _ _ _ _ _ (sprintf_19_format _ _)).
  rewrite format_Symbol, !decode_replace_format.
  unfold display_text, format_0x_PRIx64. rewrite !bytes_of_app.
  reflexivity.
Qed.

(** X9.  The binding and kind getters look the stored code up as an
    [unsigned long]: they return the member whose value is the code modulo
    2^64 when the class has one, and fail with [ValueError], leaving the
    state alone, when it has none. *)
Theorem Symbol_get_enum_outcome (st : state) (self : Symbol) (r : drgn_symbol) :
  symbols st !! sym self = Some r ->
  (has_value SymbolBinding_class (binding r mod 2 ^ 64) = true ->
   exists n, In (n, binding r mod 2 ^ 64) (enum_members SymbolBinding_class) /\
             Symbol_get_binding self st =
               (Done (PyEnum (enum_name SymbolBinding_class) n
                        (binding r mod 2 ^ 64)), st)) /\
  (has_value SymbolBinding_class (binding r mod 2 ^ 64) = false ->
   Symbol_get_binding self st = (Raised ValueError, st)) /\
  (has_value SymbolKind_class (kind r mod 2 ^ 64) = true ->
   exists n, In (n, kind r mod 2 ^ 64) (enum_members SymbolKind_class) /\
             Symbol_get_kind self st =
               (Done (PyEnum (enum_name SymbolKind_class) n
                        (kind r mod 2 ^ 64)), st)) /\
  (has_value SymbolKind_class (kind r mod 2 ^ 64) = false ->
   Symbol_get_kind self st = (Raised ValueError, st)).
Proof.
  intros Hr.
  pose proof (Symbol_get_binding_run SymbolBinding_class _ _ _ Hr) as Hb.
  pose proof (Symbol_get_kind_run SymbolKind_class _ _ _ Hr) as Hk.
  rewrite call_enum_outcome in Hb, Hk.
  change (2 ^ 64) with UINT64_MOD. fold (to_ulong (binding r)) (to_ulong (kind r)).
  split; [ | split; [ | split ] ].
  - intros H.
    destruct (member_name SymbolBinding_class (to_ulong (binding r))) as [n | ] eqn:E.
    + exists n. split; [apply (member_name_Some _ _ _ E) | exact Hb].
    + apply member_name_None in E. congruence.
  - intros H. apply member_name_None in H. now rewrite H in Hb.
  - intros H.
    destruct (member_name SymbolKind_class (to_ulong (kind r))) as [n | ] eqn:E.
    + exists n. split; [apply (member_name_Some _ _ _ E) | exact Hk].
    + apply member_name_None in E. congruence.
  - intros H. apply member_name_None in H. now rewrite H in Hk.
Qed.

(** X10.  On a live record [repr] never overruns its buffers and fails only
    through its three conversions, in their order: [UnicodeDecodeError] if
    the name is not UTF-8, whatever the codes; otherwise [ValueError] if the
    binding or the kind has no member; otherwise it returns a [str].  The
    state is the same in every case. *)
Theorem Symbol_repr_outcome (st : state) (self : Symbol) (r : drgn_symbol) :
  symbols st !! sym self = Some r ->
  snd (Symbol_repr self st) = st /\
  fst (Symbol_repr self st) <> Undefined /\
  (utf8_decode (bytes_of (name r)) = None ->
   fst (Symbol_repr self st) = Raised UnicodeDecodeError) /\
  (is_Some (utf8_decode (bytes_of (name r))) ->
   has_value SymbolBinding_class (binding r mod 2 ^ 64) = false \/
   has_value SymbolKind_class (kind r mod 2 ^ 64) = false ->
   fst (Symbol_repr self st) = Raised ValueError) /\
  ((exists u, fst (Symbol_repr self st) = Done (PyUnicode u)) <->
   is_Some (utf8_decode (bytes_of (name r))) /\
   has_value SymbolBinding_class (binding r mod 2 ^ 64) = true /\
   has_value SymbolKind_class (kind r mod 2 ^ 64) = true).
Proof.
  intros Hr. rewrite (Symbol_repr_eval _ _ _ Hr). simpl.
  change (2 ^ 64) with UINT64_MOD. fold (to_ulong (binding r)) (to_ulong (kind r)).
  split; [reflexivity | ].
  destruct (utf8_decode (bytes_of (name r))) as [u | ];
    destruct (member_name SymbolBinding_class (to_ulong (binding r)))
      as [bn | ] eqn:Eb;
    destruct (member_name SymbolKind_class (to_ulong (kind r)))
      as [kn | ] eqn:Ek;
    try (apply member_name_Some in Eb; destruct Eb as [_ Eb]);
    try (apply member_name_Some in Ek; destruct Ek as [_ Ek]);
    try apply member_name_None in Eb;
    try apply member_name_None in Ek;
    rewrite ?Eb, ?Ek;
    (split; [congruence | ]);
    (split; [intros H; first [congruence | reflexivity] | ]);
    (split;
     [ intros [u' Hu'] [H | H]; first [congruence | reflexivity]
     | split;
       [ intros [u' H]; first [congruence | repeat split; now eexists ]
       | intros ([u' H] & H1 & H2); first [congruence | now eexists ] ] ]).
Qed.

(** X11.  [repr] shows what the getters return: whenever the five getters
    succeed, [repr] succeeds, and its text is [Symbol(name=], the [repr] of
    the object that the name getter returns, [, address=0x] and hexadecimal
    digits whose value is the integer that the address getter returns, the
    same for the size, and the [repr]s of the objects that the binding and
    kind getters return. *)
Theorem Symbol_repr_agrees_with_getters
    (st : state) (self : Symbol) (n b k : PyObject) (av sv : Z) :
  Symbol_get_name self st = (Done n, st) ->
  Symbol_get_binding self st = (Done b, st) ->
  Symbol_get_kind self st = (Done k, st) ->
  Symbol_get_address self st = (Done (PyLong av), st) ->
  Symbol_get_size self st = (Done (PyLong sv), st) ->
  exists rn rb rk ahex shex,
    PyObject_Repr n st = (Done rn, st) /\
    PyObject_Repr b st = (Done rb, st) /\
    PyObject_Repr k st = (Done rk, st) /\
    hex_value 0 ahex = av /\ hex_value 0 shex = sv /\
    Symbol_repr self st =
      (Done (PyUnicode
               (bytes_of "Symbol(name=" ++ rn ++
                bytes_of ", address=0x" ++ bytes_of ahex ++
                bytes_of ", size=0x" ++ bytes_of shex ++
                bytes_of ", binding=" ++ rb ++
                bytes_of ", kind=" ++ rk ++ bytes_of ")")), st).
Proof.
  intros Hn Hb Hk Ha Hs.
  destruct (symbols st !! sym self) as [r | ] eqn:Hr.
  2: { exfalso. unfold Symbol_get_name, drgn_symbol_name, bind, deref in Hn.
       rewrite Hr in Hn. discriminate Hn. }
  rewrite (Symbol_get_name_run _ _ _ Hr) in Hn.
  unfold PyUnicode_FromString in Hn.
  destruct (utf8_decode (bytes_of (name r))) as [u | ] eqn:Hu;
    [ | discriminate Hn].
  injection Hn as <-.
  rewrite (Symbol_get_binding_run SymbolBinding_class _ _ _ Hr),
    call_enum_outcome in Hb.
  destruct (member_name SymbolBinding_class (to_ulong (binding r)))
    as [bn | ] eqn:Eb; [ | discriminate Hb].
  injection Hb as <-.
  rewrite (Symbol_get_kind_run SymbolKind_class _ _ _ Hr),
    call_enum_outcome in Hk.
  destruct (member_name SymbolKind_class (to_ulong (kind r)))
    as [kn | ] eqn:Ek; [ | discriminate Hk].
  injection Hk as <-.
  rewrite (Symbol_get_address_run _ _ _ Hr) in Ha. injection Ha as <-.
  rewrite (Symbol_get_size_run _ _ _ Hr) in Hs. injection Hs as <-.
  eexists _, _, _, (PRIx64 (address r)), (PRIx64 (size r)).
  split; [reflexivity | ].
  split; [reflexivity | ].
  split; [reflexivity | ].
  split; [apply PRIx64_value | ].
  split; [apply PRIx64_value | ].
  rewrite (Symbol_repr_eval _ _ _ Hr), Hu, Eb, Ek. reflexivity.
Qed.

End BindingErrors.

Lemma Symbol_get_enum_outcome_witness :
  symbols sample_state !! sym wrapper_main = Some sym_main /\
  has_value sample_bindings (binding sym_main mod 2 ^ 64) = true /\
  exists n,
    In (n, binding sym_main mod 2 ^ 64) (enum_members sample_bindings) /\
    Symbol_get_binding sample_bindings wrapper_main sample_state =
      (Done (PyEnum (enum_name sample_bindings) n
               (binding sym_main mod 2 ^ 64)), sample_state).
Proof.
  split; [reflexivity | split; [reflexivity | ] ].
  apply (proj1 (Symbol_get_enum_outcome sample_bindings sample_kinds
                  sample_state wrapper_main sym_main eq_refl)).
  reflexivity.
Defined.

Lemma Symbol_repr_outcome_witness :
  symbols sample_state !! sym wrapper_main = Some sym_main /\
  fst (Symbol_repr sample_bindings sample_kinds sample_isprintable
         sample_enum_repr wrapper_main sample_state) <> Undefined.
Proof.
  split; [reflexivity | ].
  apply (Symbol_repr_outcome sample_bindings sample_kinds sample_isprintable
           sample_enum_repr sample_state wrapper_main sym_main eq_refl).
Defined.

Lemma Symbol_repr_agrees_with_getters_witness :
  Symbol_get_name wrapper_main sample_state =
    (Done (PyUnicode (bytes_of "main")), sample_state) /\
  Symbol_get_binding sample_bindings wrapper_main sample_state =
    (Done (PyEnum "SymbolBinding" "GLOBAL" 2), sample_state) /\
  Symbol_get_kind sample_kinds wrapper_main sample_state =
    (Done (PyEnum "SymbolKind" "FUNC" 3), sample_state) /\
  Symbol_get_address wrapper_main sample_state =
    (Done (PyLong 4096), sample_state) /\
  Symbol_get_size wrapper_main sample_state =
    (Done (PyLong 80), sample_state) /\
  exists rn rb rk ahex shex,
    PyObject_Repr sample_isprintable sample_enum_repr
      (PyUnicode (bytes_of "main")) sample_state = (Done rn, sample_state) /\
    PyObject_Repr sample_isprintable sample_enum_repr
      (PyEnum "SymbolBinding" "GLOBAL" 2) sample_state = (Done rb, sample_state) /\
    PyObject_Repr sample_isprintable sample_enum_repr
      (PyEnum "SymbolKind" "FUNC" 3) sample_state = (Done rk, sample_state) /\
    hex_value 0 ahex = 4096 /\ hex_value 0 shex = 80 /\
    Symbol_repr sample_bindings sample_kinds sample_isprintable
      sample_enum_repr wrapper_main sample_state =
      (Done (PyUnicode
               (bytes_of "Symbol(name=" ++ rn ++
                bytes_of ", address=0x" ++ bytes_of ahex ++
                bytes_of ", size=0x" ++ bytes_of shex ++
                bytes_of ", binding=" ++ rb ++
                bytes_of ", kind=" ++ rk ++ bytes_of ")")), sample_state).
Proof.
  do 5 (split; [reflexivity | ]).
  apply (Symbol_repr_agrees_with_getters sample_bindings sample_kinds
           sample_isprintable sample_enum_repr sample_state wrapper_main
           (PyUnicode (bytes_of "main")) (PyEnum "SymbolBinding" "GLOBAL" 2)
           (PyEnum "SymbolKind" "FUNC" 3) 4096 80
           eq_refl eq_refl eq_refl eq_refl eq_refl).
Defined.

(** ** The hexadecimal text is canonical *)

Lemma hex_digit_nonzero d : 1 <= d < 16 -> hex_digit d <> "0"%char.
Proof.
  intros Hd.
  assert (d = 1 \/ d = 2 \/ d = 3 \/ d = 4 \/ d = 5 \/ d = 6 \/
          d = 7 \/ d = 8 \/ d = 9 \/ d = 10 \/ d = 11 \/ d = 12 \/ d = 13 \/
          d = 14 \/ d = 15) as H by lia.
  repeat (destruct H as [-> | H]; [discriminate | ]). subst. discriminate.
Qed.

Lemma hex_loop_head n : forall v acc,
  0 < v < 16 ^ Z.of_nat n ->
  exists c s, hex_loop n v acc = String c s /\ c <> "0"%char.
Proof.
  induction n as [ | n IH]; intros v acc Hv.
  - change (16 ^ Z.of_nat 0) with 1 in Hv. lia.
  - simpl. destruct (Z.eqb_spec (v / 16) 0) as [E | E].
    + eexists _, _. split; [reflexivity | ].
      apply hex_digit_nonzero.
      pose proof (Z.div_mod v 16). pose proof (Z.mod_pos_bound v 16). lia.
    + apply IH.
      assert (16 <= v).
      { destruct (Z_lt_le_dec v 16) as [Hlt | ]; [ | assumption].
        exfalso. apply E. apply Z.div_small. lia. }
      split; [apply Z.div_str_pos; lia | ].
      apply Z.div_lt_upper_bound; [lia | ].
      replace (Z.of_nat (S n)) with (Z.succ (Z.of_nat n)) in Hv by lia.
      rewrite Z.pow_succ_r in Hv by lia. lia.
Qed.

Lemma hex_digit_In d : In (hex_digit d) hexdigits.
Proof.
  unfold hex_digit.
  destruct (nth_in_or_default (Z.to_nat d) hexdigits "0"%char) as [H | ->].
  - exact H.
  - now left.
Qed.

Lemma hex_loop_digits n : forall v acc,
  Forall (fun c => In c hexdigits) (list_ascii_of_string acc) ->
  Forall (fun c => In c hexdigits) (list_ascii_of_string (hex_loop n v acc)).
Proof.
  induction n as [ | n IH]; intros v acc Hacc; simpl; [exact Hacc | ].
  assert (H : Forall (fun c => In c hexdigits)
                (list_ascii_of_string (String (hex_digit (v mod 16)) acc))).
  { constructor; [apply hex_digit_In | exact Hacc]. }
  destruct (v / 16 =? 0); [exact H | now apply IH].
Qed.

(** X12.  The text that ["0x%" PRIx64] gives for the address and the size is
    canonical: two values print the same exactly when they are the same
    64-bit value, the digits are lowercase hexadecimal digits, zero prints
    as [0x0] and no other value has a leading zero digit. *)
Theorem format_0x_PRIx64_canonical (a b : Z) :
  (format_0x_PRIx64 a = format_0x_PRIx64 b <-> a mod 2 ^ 64 = b mod 2 ^ 64) /\
  Forall (fun c => In c hexdigits) (list_ascii_of_string (PRIx64 a)) /\
  (a mod 2 ^ 64 = 0 -> format_0x_PRIx64 a = "0x0"%string) /\
  (a mod 2 ^ 64 <> 0 ->
   exists c s, PRIx64 a = String c s /\ c <> "0"%char).
Proof.
  change (2 ^ 64) with UINT64_MOD. fold (to_uint64 a) (to_uint64 b).
  split; [ | split; [ | split ] ].
  - split.
    + intros H. unfold format_0x_PRIx64 in H. cbv [append] in H.
      injection H as H. now rewrite <- (PRIx64_value a), <- (PRIx64_value b), H.
    + intros H. unfold format_0x_PRIx64, PRIx64. now rewrite H.
  - unfold PRIx64. apply hex_loop_digits. constructor.
  - intros H. unfold format_0x_PRIx64, PRIx64. now rewrite H.
  - intros H. unfold PRIx64. apply hex_loop_head.
    pose proof (to_uint64_range a) as Hr.
    split; [lia | ].
    apply Z.lt_le_trans with (16 ^ Z.of_nat 16); [lia | ].
    apply Z.pow_le_mono_r; lia.
Qed.

(** ** The attributes of [tp_getset] *)

Ltac attr_case :=
  cbn; repeat split; try tauto; try (now eexists); try discriminate;
  try (intros;
       match goal with
       | H : Some _ = Some _ |- _ => injection H as <-; reflexivity
       end).

(** X13.  The type exposes exactly five attributes through [tp_getset]:
    name, address, size, binding and kind.  Each has the getter of the
    table, and none has a setter: assigning to any of them raises
    [AttributeError] and leaves the state as it was. *)
Theorem Symbol_attributes_read_only
    (bindings kinds : enum_class) (attr : string) :
  (is_Some (Symbol_descriptor bindings kinds attr) <->
   In attr ["name"; "address"; "size"; "binding"; "kind"]%string) /\
  (forall d, Symbol_descriptor bindings kinds attr = Some d ->
     gs_name d = attr /\
     Symbol_getter bindings kinds attr = Some (gs_get d) /\
     gs_set d = None) /\
  (Symbol_descriptor bindings kinds attr = None ->
   Symbol_getter bindings kinds attr = None /\
   forall self value, Symbol_setattr bindings kinds attr self value = None) /\
  (forall self value m st,
     Symbol_setattr bindings kinds attr self value = Some m ->
     m st = (Raised AttributeError, st)).
Proof.
  unfold Symbol_setattr, Symbol_descriptor, Symbol_getter,
    Symbol_getset_rows, Symbol_getset.
  cbn [find fst snd gs_name fmap option_fmap option_map].
  destruct (String.eqb_spec "name" attr) as [<- | N1].
  { attr_case. }
  destruct (String.eqb_spec "address" attr) as [<- | N2].
  { attr_case. }
  destruct (String.eqb_spec "size" attr) as [<- | N3].
  { attr_case. }
  destruct (String.eqb_spec "binding" attr) as [<- | N4].
  { attr_case. }
  destruct (String.eqb_spec "kind" attr) as [<- | N5].
  { attr_case. }
  cbn. repeat split; try discriminate; try reflexivity.
  - intros [d H]. discriminate H.
  - intros H. simpl in H. intuition congruence.
Qed.

(** ** UTF-8: what the name getter decodes can be encoded back *)

Lemma utf8_decode_cons b0 r0 :
  utf8_decode (b0 :: r0) =
    if (b0 <? 128)%N then cons b0 <$> utf8_decode r0
    else if in_range 194 223 b0 then
      match r0 with
      | b1 :: r1 =>
        if is_cont b1
        then cons ((b0 - 192) * 64 + (b1 - 128))%N <$> utf8_decode r1
        else None
      | _ => None
      end
    else if in_range 224 239 b0 then
      match r0 with
      | b1 :: b2 :: r2 =>
        if in_range (if (b0 =? 224)%N then 160 else 128)
                    (if (b0 =? 237)%N then 159 else 191) b1 && is_cont b2
        then cons ((b0 - 224) * 4096 + (b1 - 128) * 64 + (b2 - 128))%N
               <$> utf8_decode r2
        else None
      | _ => None
      end
    else if in_range 240 244 b0 then
      match r0 with
      | b1 :: b2 :: b3 :: r3 =>
        if in_range (if (b0 =? 240)%N then 144 else 128)
                    (if (b0 =? 244)%N then 143 else 191) b1 &&
           is_cont b2 && is_cont b3
        then cons ((b0 - 240) * 262144 + (b1 - 128) * 4096 +
                   (b2 - 128) * 64 + (b3 - 128))%N <$> utf8_decode r3
        else None
      | _ => None
      end
    else None.
Proof. reflexivity. Qed.

Lemma in_range_iff lo hi b : in_range lo hi b = true <-> (lo <= b <= hi)%N.
Proof. unfold in_range. rewrite andb_true_iff, !N.leb_le. reflexivity. Qed.

Ltac euclid := zify; Z.to_euclidean_division_equations; lia.

Ltac decide_ltb :=
  repeat match goal with
         | |- context [(?a <? ?b)%N] =>
           destruct (N.ltb_spec a b); try (exfalso; euclid)
         end.

Lemma utf8_encode_cp_2 b0 b1 :
  (194 <= b0 <= 223)%N -> (128 <= b1 <= 191)%N ->
  utf8_encode_cp ((b0 - 192) * 64 + (b1 - 128)) = [b0; b1].
Proof.
  intros H0 H1. unfold utf8_encode_cp. decide_ltb.
  repeat f_equal; euclid.
Qed.

Lemma utf8_encode_cp_3 b0 b1 b2 :
  (224 <= b0 <= 239)%N -> (128 <= b1 <= 191)%N -> (128 <= b2 <= 191)%N ->
  (b0 = 224 -> 160 <= b1)%N ->
  utf8_encode_cp ((b0 - 224) * 4096 + (b1 - 128) * 64 + (b2 - 128)) =
    [b0; b1; b2].
Proof.
  intros H0 H1 H2 H3. unfold utf8_encode_cp. decide_ltb.
  repeat f_equal; euclid.
Qed.

Lemma utf8_encode_cp_4 b0 b1 b2 b3 :
  (240 <= b0 <= 244)%N -> (128 <= b1 <= 191)%N -> (128 <= b2 <= 191)%N ->
  (128 <= b3 <= 191)%N -> (b0 = 240 -> 144 <= b1)%N ->
  utf8_encode_cp ((b0 - 240) * 262144 + (b1 - 128) * 4096 +
                  (b2 - 128) * 64 + (b3 - 128)) = [b0; b1; b2; b3].
Proof.
  intros H0 H1 H2 H3 H4. unfold utf8_encode_cp. decide_ltb.
  repeat f_equal; euclid.
Qed.

Lemma utf8_encode_cons c u :
  utf8_encode (c :: u) = utf8_encode_cp c ++ utf8_encode u.
Proof. reflexivity. Qed.

Lemma utf8_decode_encode_le (n : nat) : forall bs u,
  (length bs <= n)%nat -> utf8_decode bs = Some u -> utf8_encode u = bs.
Proof.
  induction n as [ | n IH]; intros bs u Hlen H.
  - destruct bs; [ | simpl in Hlen; lia]. simpl in H. now injection H as <-.
  - destruct bs as [ | b0 r0]; [simpl in H; now injection H as <- | ].
    rewrite utf8_decode_cons in H. simpl in Hlen.
    destruct (N.ltb_spec b0 128) as [L0 | L0].
    { apply fmap_Some in H. destruct H as (u' & Hu' & ->).
      rewrite utf8_encode_cons, (IH r0 u') by (assumption || lia).
      unfold utf8_encode_cp.
      now rewrite (proj2 (N.ltb_lt _ _) L0). }
    destruct (in_range 194 223 b0) eqn:E2.
    { apply in_range_iff in E2.
      destruct r0 as [ | b1 r1]; [discriminate | ].
      destruct (is_cont b1) eqn:C1; [ | discriminate].
      apply in_range_iff in C1.
      apply fmap_Some in H. destruct H as (u' & Hu' & ->). simpl in Hlen.
      rewrite utf8_encode_cons, (IH r1 u') by (assumption || lia).
      now rewrite utf8_encode_cp_2. }
    destruct (in_range 224 239 b0) eqn:E3.
    { apply in_range_iff in E3.
      destruct r0 as [ | b1 [ | b2 r2]]; try discriminate.
      destruct (in_range _ _ b1 && is_cont b2) eqn:C; [ | discriminate].
      apply andb_true_iff in C. destruct C as [C1 C2].
      apply in_range_iff in C1. apply in_range_iff in C2.
      apply fmap_Some in H. destruct H as (u' & Hu' & ->). simpl in Hlen.
      rewrite utf8_encode_cons, (IH r2 u') by (assumption || lia).
      rewrite utf8_encode_cp_3; try reflexivity; try assumption.
      - destruct (b0 =? 224)%N, (b0 =? 237)%N; lia.
      - intros ->. simpl in C1. lia. }
    destruct (in_range 240 244 b0) eqn:E4; [ | discriminate].
    apply in_range_iff in E4.
    destruct r0 as [ | b1 [ | b2 [ | b3 r3]]]; try discriminate.
    destruct (in_range _ _ b1 && is_cont b2 && is_cont b3) eqn:C;
      [ | discriminate].
    apply andb_true_iff in C. destruct C as [C C3].
    apply andb_true_iff in C. destruct C as [C1 C2].
    apply in_range_iff in C1. apply in_range_iff in C2.
    apply in_range_iff in C3.
    apply fmap_Some in H. destruct H as (u' & Hu' & ->). simpl in Hlen.
    rewrite utf8_encode_cons, (IH r3 u') by (assumption || lia).
    rewrite utf8_encode_cp_4; try reflexivity; try assumption.
    + destruct (b0 =? 240)%N, (b0 =? 244)%N; lia.
    + intros ->. simpl in C1. lia.
Qed.

Lemma utf8_decode_encode bs u :
  utf8_decode bs = Some u -> utf8_encode u = bs.
Proof. apply (utf8_decode_encode_le (length bs)). lia. Qed.

Lemma utf8_decode_inj bs1 bs2 u :
  utf8_decode bs1 = Some u -> utf8_decode bs2 = Some u -> bs1 = bs2.
Proof.
  intros H1 H2.
  now rewrite <- (utf8_decode_encode _ _ H1), <- (utf8_decode_encode _ _ H2).
Qed.

Lemma in_range_false lo hi b : (b < lo \/ hi < b)%N -> in_range lo hi b = false.
Proof.
  intros H. destruct (in_range lo hi b) eqn:E; [ | reflexivity].
  apply in_range_iff in E. lia.
Qed.

Lemma utf8_decode_1 b0 r :
  (b0 < 128)%N -> utf8_decode (b0 :: r) = cons b0 <$> utf8_decode r.
Proof.
  intros H. rewrite utf8_decode_cons. now rewrite (proj2 (N.ltb_lt _ _) H).
Qed.

Lemma utf8_decode_2 b0 b1 r :
  (194 <= b0 <= 223)%N -> (128 <= b1 <= 191)%N ->
  utf8_decode (b0 :: b1 :: r) =
    cons ((b0 - 192) * 64 + (b1 - 128))%N <$> utf8_decode r.
Proof.
  intros H0 H1. rewrite utf8_decode_cons.
  rewrite (proj2 (N.ltb_ge _ _)) by lia.
  rewrite (proj2 (in_range_iff 194 223 b0)) by lia.
  unfold is_cont. now rewrite (proj2 (in_range_iff 128 191 b1)) by lia.
Qed.

Lemma utf8_decode_3 b0 b1 b2 r :
  (224 <= b0 <= 239)%N ->
  in_range (if (b0 =? 224)%N then 160 else 128)
           (if (b0 =? 237)%N then 159 else 191) b1 = true ->
  (128 <= b2 <= 191)%N ->
  utf8_decode (b0 :: b1 :: b2 :: r) =
    cons ((b0 - 224) * 4096 + (b1 - 128) * 64 + (b2 - 128))%N
      <$> utf8_decode r.
Proof.
  intros H0 H1 H2. rewrite utf8_decode_cons.
  rewrite (proj2 (N.ltb_ge _ _)) by lia.
  rewrite (in_range_false 194 223 b0) by lia.
  rewrite (proj2 (in_range_iff 224 239 b0)) by lia.
  rewrite H1. unfold is_cont.
  now rewrite (proj2 (in_range_iff 128 191 b2)) by lia.
Qed.

Lemma utf8_decode_4 b0 b1 b2 b3 r :
  (240 <= b0 <= 244)%N ->
  in_range (if (b0 =? 240)%N then 144 else 128)
           (if (b0 =? 244)%N then 143 else 191) b1 = true ->
  (128 <= b2 <= 191)%N -> (128 <= b3 <= 191)%N ->
  utf8_decode (b0 :: b1 :: b2 :: b3 :: r) =
    cons ((b0 - 240) * 262144 + (b1 - 128) * 4096 +
          (b2 - 128) * 64 + (b3 - 128))%N <$> utf8_decode r.
Proof.
  intros H0 H1 H2 H3. rewrite utf8_decode_cons.
  rewrite (proj2 (N.ltb_ge _ _)) by lia.
  rewrite (in_range_false 194 223 b0) by lia.
  rewrite (in_range_false 224 239 b0) by lia.
  rewrite (proj2 (in_range_iff 240 244 b0)) by lia.
  rewrite H1. unfold is_cont.
  rewrite (proj2 (in_range_iff 128 191 b2)) by lia.
  now rewrite (proj2 (in_range_iff 128 191 b3)) by lia.
Qed.

Lemma is_scalar_value_iff c :
  is_scalar_value c = true <-> (c < 55296 \/ 57344 <= c <= 1114111)%N.
Proof.
  unfold is_scalar_value.
  rewrite orb_true_iff, andb_true_iff, N.ltb_lt, !N.leb_le. reflexivity.
Qed.

Lemma utf8_decode_step c rest :
  is_scalar_value c = true ->
  utf8_decode (utf8_encode_cp c ++ rest) = cons c <$> utf8_decode rest.
Proof.
  intros Hc. apply is_scalar_value_iff in Hc.
  unfold utf8_encode_cp.
  destruct (N.ltb_spec c 128) as [L1 | L1];
    [ | destruct (N.ltb_spec c 2048) as [L2 | L2];
        [ | destruct (N.ltb_spec c 65536) as [L3 | L3] ] ].
  - simpl app. now apply utf8_decode_1.
  - simpl app. rewrite utf8_decode_2 by euclid.
    do 2 f_equal. euclid.
  - simpl app. rewrite utf8_decode_3.
    + do 2 f_equal. euclid.
    + euclid.
    + apply in_range_iff.
      destruct (N.eqb_spec (224 + c / 4096) 224),
               (N.eqb_spec (224 + c / 4096) 237); euclid.
    + euclid.
  - simpl app. rewrite utf8_decode_4.
    + do 2 f_equal. euclid.
    + euclid.
    + apply in_range_iff.
      destruct (N.eqb_spec (240 + c / 262144) 240),
               (N.eqb_spec (240 + c / 262144) 244); euclid.
    + euclid.
    + euclid.
Qed.

Lemma utf8_encode_decode u :
  Forall (fun c => is_scalar_value c = true) u ->
  utf8_decode (utf8_encode u) = Some u.
Proof.
  induction 1 as [ | c u Hc _ IH]; [reflexivity | ].
  rewrite utf8_encode_cons, (utf8_decode_step _ _ Hc), IH. reflexivity.
Qed.

Lemma utf8_encode_cp_bytes c :
  is_scalar_value c = true -> Forall (fun b => (b < 256)%N) (utf8_encode_cp c).
Proof.
  intros Hc. apply is_scalar_value_iff in Hc.
  unfold utf8_encode_cp. decide_ltb; repeat constructor; euclid.
Qed.

Lemma utf8_encode_bytes u :
  Forall (fun c => is_scalar_value c = true) u ->
  Forall (fun b => (b < 256)%N) (utf8_encode u).
Proof.
  induction 1 as [ | c u Hc _ IH]; [constructor | ].
  rewrite utf8_encode_cons. apply Forall_app. split; [ | exact IH].
  now apply utf8_encode_cp_bytes.
Qed.

Lemma bytes_of_string_of_bytes bs :
  Forall (fun b => (b < 256)%N) bs -> bytes_of (string_of_bytes bs) = bs.
Proof.
  unfold bytes_of, string_of_bytes.
  rewrite list_ascii_of_string_of_list_ascii.
  induction 1 as [ | b bs Hb _ IH]; [reflexivity | ].
  simpl. rewrite IH. f_equal. now apply N_ascii_embedding.
Qed.

Lemma bytes_of_inj s t : bytes_of s = bytes_of t -> s = t.
Proof.
  unfold bytes_of. intros H.
  rewrite <- (string_of_list_ascii_of_string s),
          <- (string_of_list_ascii_of_string t).
  f_equal. revert H.
  generalize (list_ascii_of_string s) (list_ascii_of_string t).
  intros l. induction l as [ | a l IH]; intros [ | b m] H;
    try discriminate H; [reflexivity | ].
  simpl in H. injection H as Hab Hlm.
  f_equal; [ | now apply IH].
  now rewrite <- (ascii_N_embedding a), <- (ascii_N_embedding b), Hab.
Qed.

(** X14.  The name getter decodes the stored C string as UTF-8 and nothing
    else: it returns a [str] exactly when the bytes are valid UTF-8, the
    UTF-8 encoding of that [str] is the stored byte string again, an ASCII
    name comes back character for character, and a name that is not UTF-8
    fails with [UnicodeDecodeError]. *)
Theorem Symbol_get_name_outcome (st : state) (self : Symbol) (r : drgn_symbol) :
  symbols st !! sym self = Some r ->
  (forall u, Symbol_get_name self st = (Done (PyUnicode u), st) <->
             utf8_decode (bytes_of (name r)) = Some u) /\
  (forall u, Symbol_get_name self st = (Done (PyUnicode u), st) ->
             utf8_encode u = bytes_of (name r)) /\
  (Symbol_get_name self st = (Raised UnicodeDecodeError, st) <->
   utf8_decode (bytes_of (name r)) = None) /\
  (ascii_only (bytes_of (name r)) ->
   Symbol_get_name self st = (Done (PyUnicode (bytes_of (name r))), st)).
Proof.
  intros Hr. rewrite (Symbol_get_name_run _ _ _ Hr).
  unfold PyUnicode_FromString.
  assert (Hiff : forall u,
             (match utf8_decode (bytes_of (name r)) with
              | Some u0 => ret (PyUnicode u0)
              | None => raise UnicodeDecodeError
              end) st = (Done (PyUnicode u), st) <->
             utf8_decode (bytes_of (name r)) = Some u).
  { intros u. destruct (utf8_decode (bytes_of (name r))) as [u0 | ].
    - split; [intros [= ->]; reflexivity | intros [= ->]; reflexivity].
    - split; discriminate. }
  split; [exact Hiff | ].
  split; [intros u H; apply Hiff in H; now apply utf8_decode_encode | ].
  split.
  - destruct (utf8_decode (bytes_of (name r))); split;
      try discriminate; reflexivity.
  - intros Ha. now rewrite (utf8_decode_ascii _ Ha).
Qed.

Lemma Symbol_get_name_outcome_witness :
  symbols sample_state !! sym wrapper_helper = Some sym_helper /\
  ascii_only (bytes_of (name sym_helper)) /\
  Symbol_get_name wrapper_helper sample_state =
    (Done (PyUnicode (bytes_of (name sym_helper))), sample_state).
Proof.
  assert (H : ascii_only (bytes_of (name sym_helper))).
  { repeat constructor. }
  split; [reflexivity | split; [exact H | ] ].
  apply (Symbol_get_name_outcome sample_state wrapper_helper sym_helper eq_refl).
  exact H.
Defined.

(** X15.  Every text can be read back: if the stored name is the UTF-8
    encoding of a [str] made of Unicode scalar values other than U+0000
    (which a C string cannot hold), the name getter returns that [str]. *)
Theorem Symbol_get_name_reads_back
    (st : state) (self : Symbol) (r : drgn_symbol) (u : unicode) :
  symbols st !! sym self = Some r ->
  Forall (fun c => is_scalar_value c = true /\ c <> 0%N) u ->
  name r = string_of_bytes (utf8_encode u) ->
  Symbol_get_name self st = (Done (PyUnicode u), st).
Proof.
  intros Hr Hu Hn.
  assert (Hs : Forall (fun c => is_scalar_value c = true) u).
  { eapply Forall_impl; [exact Hu | ]. now intros c [H _]. }
  rewrite (Symbol_get_name_run _ _ _ Hr). unfold PyUnicode_FromString.
  rewrite Hn, (bytes_of_string_of_bytes _ (utf8_encode_bytes _ Hs)).
  now rewrite (utf8_encode_decode _ Hs).
Qed.

Lemma Symbol_get_name_reads_back_witness :
  symbols text_state !! sym wrapper_main = Some sym_text /\
  Forall (fun c => is_scalar_value c = true /\ c <> 0%N) sample_text /\
  name sym_text = string_of_bytes (utf8_encode sample_text) /\
  Symbol_get_name wrapper_main text_state =
    (Done (PyUnicode sample_text), text_state).
Proof.
  assert (H : Forall (fun c => is_scalar_value c = true /\ c <> 0%N)
                sample_text).
  { repeat constructor; discriminate. }
  split; [reflexivity | split; [exact H | split; [reflexivity | ] ] ].
  apply (Symbol_get_name_reads_back text_state wrapper_main sym_text
           sample_text eq_refl H eq_refl).
Defined.

(** X16.  For records of the data model, attribute-wise agreement is
    equality: if the five getters return the same objects on [a] and on
    [b], then [a == b] is [True]. *)
Theorem Symbol_getters_agree_equal
    (bindings kinds : enum_class) (st : state) (a b : Symbol)
    (ra rb : drgn_symbol) :
  symbols st !! sym a = Some ra ->
  symbols st !! sym b = Some rb ->
  valid_symbol bindings kinds ra ->
  valid_symbol bindings kinds rb ->
  fst (Symbol_get_name a st) = fst (Symbol_get_name b st) ->
  fst (Symbol_get_address a st) = fst (Symbol_get_address b st) ->
  fst (Symbol_get_size a st) = fst (Symbol_get_size b st) ->
  fst (Symbol_get_binding bindings a st) = fst (Symbol_get_binding bindings b st) ->
  fst (Symbol_get_kind kinds a st) = fst (Symbol_get_kind kinds b st) ->
  equals st a b = Done Py_True.
Proof.
  intros Ha Hb (Aa & As & [ua Hua] & Ab & Abv & Ak & Akv)
         (Ba & Bs & [ub Hub] & Bb & Bbv & Bk & Bkv) Hn Had Hsz Hbi Hki.
  assert (same_fields ra rb) as Hsame.
  { unfold same_fields. split; [ | split; [ | split; [ | split ] ] ].
    - rewrite (Symbol_get_name_run _ _ _ Ha), (Symbol_get_name_run _ _ _ Hb) in Hn.
      unfold PyUnicode_FromString in Hn. rewrite Hua, Hub in Hn.
      simpl in Hn. injection Hn as ->.
      apply bytes_of_inj. apply (utf8_decode_inj _ _ _ Hua Hub).
    - rewrite (Symbol_get_address_run _ _ _ Ha),
        (Symbol_get_address_run _ _ _ Hb) in Had.
      simpl in Had. injection Had as Had.
      now rewrite (to_uint64_small _ Aa), (to_uint64_small _ Ba) in Had.
    - rewrite (Symbol_get_size_run _ _ _ Ha),
        (Symbol_get_size_run _ _ _ Hb) in Hsz.
      simpl in Hsz. injection Hsz as Hsz.
      now rewrite (to_uint64_small _ As), (to_uint64_small _ Bs) in Hsz.
    - destruct (call_enum_member bindings _ st Ab Abv) as (na & _ & _ & Hca).
      destruct (call_enum_member bindings _ st Bb Bbv) as (nb & _ & _ & Hcb).
      rewrite (Symbol_get_binding_run _ _ _ _ Ha),
        (Symbol_get_binding_run _ _ _ _ Hb), Hca, Hcb in Hbi.
      simpl in Hbi. now injection Hbi.
    - destruct (call_enum_member kinds _ st Ak Akv) as (na & _ & _ & Hca).
      destruct (call_enum_member kinds _ st Bk Bkv) as (nb & _ & _ & Hcb).
      rewrite (Symbol_get_kind_run _ _ _ _ Ha),
        (Symbol_get_kind_run _ _ _ _ Hb), Hca, Hcb in Hki.
      simpl in Hki. now injection Hki. }
  destruct (richcompare_symbols st a b ra rb Py_EQ Ha Hb (or_introl eq_refl))
    as (e & He & Hrun).
  unfold equals. rewrite Hrun. simpl.
  now rewrite (proj2 He Hsame).
Qed.

Lemma Symbol_getters_agree_equal_witness :
  symbols sample_state !! sym wrapper_main = Some sym_main /\
  symbols sample_state !! sym wrapper_main_again = Some sym_main /\
  valid_symbol sample_bindings sample_kinds sym_main /\
  equals sample_state wrapper_main wrapper_main_again = Done Py_True.
Proof.
  split; [reflexivity | split; [reflexivity | split; [exact sym_main_valid | ] ] ].
  apply (Symbol_getters_agree_equal sample_bindings sample_kinds sample_state
           wrapper_main wrapper_main_again sym_main sym_main
           eq_refl eq_refl sym_main_valid sym_main_valid
           eq_refl eq_refl eq_refl eq_refl eq_refl).
Defined.

(** ** The display form with the members of [enum.Enum] *)

(** C5, amended.  [repr] of a wrapper of a record of the data model returns
    exactly [Symbol(name=<quoted name>, address=0x<hex>, size=0x<hex>,
    binding=<repr of the binding member>, kind=<repr of the kind member>)]:
    the name quoted as Python quotes a [str], address and size in
    hexadecimal digits whose value is the stored field, and binding and kind
    as [%R] prints a member of an enumeration class,
    [<Class.MEMBER: value>].  For the record [main] at 0x1000 of size 0x50,
    GLOBAL and FUNC, the text is
    [Symbol(name='main', address=0x1000, size=0x50,
    binding=<SymbolBinding.GLOBAL: b>, kind=<SymbolKind.FUNC: k>)] with [b]
    and [k] the values of the two members. *)
Theorem Symbol_repr_enum_display_form
    (bindings kinds : enum_class) (isprintable : N -> bool)
    (st : state) (self : Symbol) (r : drgn_symbol) :
  symbols st !! sym self = Some r ->
  valid_symbol bindings kinds r ->
  (exists u bn kn,
     utf8_decode (bytes_of (name r)) = Some u /\
     member_name bindings (binding r) = Some bn /\
     member_name kinds (kind r) = Some kn /\
     hex_value 0 (PRIx64 (address r)) = address r /\
     hex_value 0 (PRIx64 (size r)) = size r /\
     Symbol_repr bindings kinds isprintable enum_default_repr self st =
       (Done (PyUnicode
          (bytes_of "Symbol(name=" ++ unicode_repr isprintable u ++
           bytes_of ", address=0x" ++ bytes_of (PRIx64 (address r)) ++
           bytes_of ", size=0x" ++ bytes_of (PRIx64 (size r)) ++
           bytes_of ", binding=<" ++ bytes_of (enum_name bindings) ++
           bytes_of "." ++ bytes_of bn ++ bytes_of ": " ++
           Long_repr (binding r) ++
           bytes_of ">, kind=<" ++ bytes_of (enum_name kinds) ++
           bytes_of "." ++ bytes_of kn ++ bytes_of ": " ++
           Long_repr (kind r) ++ bytes_of ">)")), st)) /\
  (name r = "main"%string -> address r = 4096 -> size r = 80 ->
   enum_name bindings = "SymbolBinding"%string ->
   enum_name kinds = "SymbolKind"%string ->
   member_name bindings (binding r) = Some "GLOBAL"%string ->
   member_name kinds (kind r) = Some "FUNC"%string ->
   Symbol_repr bindings kinds isprintable enum_default_repr self st =
     (Done (PyUnicode
        (bytes_of
           "Symbol(name='main', address=0x1000, size=0x50, binding=<SymbolBinding.GLOBAL: " ++
         Long_repr (binding r) ++
         bytes_of ">, kind=<SymbolKind.FUNC: " ++
         Long_repr (kind r) ++ bytes_of ">)")), st)).
Proof.
  intros Hr (Ha & Hs & [u Hu] & Hb & Hbv & Hk & Hkv).
  destruct (find_member _ _ Hbv) as (bn & Hfb & _).
  destruct (find_member _ _ Hkv) as (kn & Hfk & _).
  assert (Hmb : member_name bindings (binding r) = Some bn)
    by (unfold member_name; now rewrite Hfb).
  assert (Hmk : member_name kinds (kind r) = Some kn)
    by (unfold member_name; now rewrite Hfk).
  pose proof (Symbol_repr_eval bindings kinds isprintable enum_default_repr
                st self r Hr) as Hrun.
  assert (Hub : to_ulong (binding r) = binding r) by now apply Z.mod_small.
  assert (Huk : to_ulong (kind r) = kind r) by now apply Z.mod_small.
  rewrite Hub, Huk, Hu, Hmb, Hmk in Hrun.
  assert (Htext :
    display_text bindings kinds isprintable enum_default_repr r u bn kn =
    bytes_of "Symbol(name=" ++ unicode_repr isprintable u ++
    bytes_of ", address=0x" ++ bytes_of (PRIx64 (address r)) ++
    bytes_of ", size=0x" ++ bytes_of (PRIx64 (size r)) ++
    bytes_of ", binding=<" ++ bytes_of (enum_name bindings) ++
    bytes_of "." ++ bytes_of bn ++ bytes_of ": " ++
    Long_repr (binding r) ++
    bytes_of ">, kind=<" ++ bytes_of (enum_name kinds) ++
    bytes_of "." ++ bytes_of kn ++ bytes_of ": " ++
    Long_repr (kind r) ++ bytes_of ">)").
  { unfold display_text, enum_default_repr. rewrite Hub, Huk.
    rewrite !bytes_of_app, <- !List.app_assoc. reflexivity. }
  rewrite Htext in Hrun. clear Htext.
  split.
  - exists u, bn, kn.
    split; [exact Hu | ].
    split; [exact Hmb | ].
    split; [exact Hmk | ].
    split; [rewrite PRIx64_value; now apply to_uint64_small | ].
    split; [rewrite PRIx64_value; now apply to_uint64_small | ].
    exact Hrun.
  - intros Hname Haddr Hsize Hcb Hck Hgl Hfn.
    rewrite Hrun.
    rewrite Hmb in Hgl. rewrite Hmk in Hfn.
    injection Hgl as ->. injection Hfn as ->.
    rewrite Hname in Hu. vm_compute in Hu. injection Hu as <-.
    rewrite Haddr, Hsize, Hcb, Hck. reflexivity.
Qed.

Lemma Symbol_repr_enum_display_form_witness :
  symbols sample_state !! sym wrapper_main = Some sym_main /\
  valid_symbol sample_bindings sample_kinds sym_main /\
  Symbol_repr sample_bindings sample_kinds sample_isprintable
    enum_default_repr wrapper_main sample_state =
  (Done (PyUnicode (bytes_of
     "Symbol(name='main', address=0x1000, size=0x50, binding=<SymbolBinding.GLOBAL: 2>, kind=<SymbolKind.FUNC: 3>)")),
   sample_state).
Proof.
  split; [reflexivity | split; [exact sym_main_valid | ] ].
  apply (proj2 (Symbol_repr_enum_display_form sample_bindings sample_kinds
                  sample_isprintable sample_state wrapper_main sym_main
                  eq_refl sym_main_valid));
    reflexivity.
Defined.

(** C5 as stated fails: for the record [main], GLOBAL and FUNC, [repr] does
    not return the text with the bare member names,
    [Symbol(name='main', address=0x1000, size=0x50, binding=GLOBAL, kind=FUNC)];
    both members go through [%R]. *)
Lemma Symbol_repr_bare_names_counterexample :
  Symbol_repr sample_bindings sample_kinds sample_isprintable
    enum_default_repr wrapper_main sample_state <>
  (Done (PyUnicode (bytes_of
     "Symbol(name='main', address=0x1000, size=0x50, binding=GLOBAL, kind=FUNC)")),
   sample_state).
Proof.
  intros H. apply (f_equal fst) in H. vm_compute in H. discriminate H.
Qed.
